(** * A shallow embedding of the UPI fraud-detection backend

    Python [str] values are Rocq [string]s; the embedding covers ASCII text
    (code points 0..127), where Python's [str.lower] and the character
    classes of [re] are the ASCII ones written below.  Python floats are
    modelled as exact rationals [Q]; Python dicts as stdpp [gmap]s or as
    records with one field per key the code writes. *)

From Stdlib Require Import QArith Qround Qminmax Lqa ZArith Bool Ascii String List Lia.
From stdpp Require Import base gmap strings list.

Import ListNotations.
Open Scope string_scope.

(* ------------------------------------------------------------------ *)
(** ** Strings: the [str] methods the code calls *)

Definition chr (n : nat) : ascii := ascii_of_nat n.
Definition NL : ascii := chr 10.

Definition is_upper (c : ascii) : bool :=
  (Nat.leb 65 (nat_of_ascii c) && Nat.leb (nat_of_ascii c) 90)%bool.
Definition is_lower_c (c : ascii) : bool :=
  (Nat.leb 97 (nat_of_ascii c) && Nat.leb (nat_of_ascii c) 122)%bool.
Definition is_digit (c : ascii) : bool :=
  (Nat.leb 48 (nat_of_ascii c) && Nat.leb (nat_of_ascii c) 57)%bool.
Definition is_alpha (c : ascii) : bool := (is_upper c || is_lower_c c)%bool.
Definition is_alnum (c : ascii) : bool := (is_alpha c || is_digit c)%bool.

(** [c.lower()] on ASCII. *)
Definition lower_c (c : ascii) : ascii :=
  if is_upper c then chr (nat_of_ascii c + 32) else c.

(** [s.lower()] *)
Fixpoint lower (s : string) : string :=
  match s with
  | EmptyString => EmptyString
  | String c s' => String (lower_c c) (lower s')
  end.

(** [s.startswith(p)] *)
Fixpoint startswith (s p : string) : bool :=
  match p, s with
  | EmptyString, _ => true
  | String c p', String d s' => (Ascii.eqb c d && startswith s' p')%bool
  | String _ _, EmptyString => false
  end.

(** [p in s] (substring test) *)
Fixpoint contains (s p : string) : bool :=
  match s with
  | EmptyString => startswith s p
  | String _ s' => (startswith s p || contains s' p)%bool
  end.

(** [s.endswith(p)] *)
Definition endswith (s p : string) : bool :=
  (Nat.leb (String.length p) (String.length s) &&
   String.eqb (substring (String.length s - String.length p)
                         (String.length p) s) p)%bool.

(** [c in s] for a character *)
Fixpoint has_char (s : string) (c : ascii) : bool :=
  match s with
  | EmptyString => false
  | String d s' => (Ascii.eqb c d || has_char s' c)%bool
  end.

(** [s.replace(old, new)] for a non-empty [old]: every non-overlapping
    occurrence, scanning from the left. *)
Fixpoint replace_all (fuel : nat) (s old new : string) : string :=
  match fuel with
  | O => s
  | S f =>
      match s with
      | EmptyString => EmptyString
      | String c s' =>
          if startswith s old
          then new ++ replace_all f
                 (substring (String.length old)
                    (String.length s - String.length old) s) old new
          else String c (replace_all f s' old new)
      end
  end.

Definition py_replace (s old new : string) : string :=
  replace_all (S (String.length s)) s old new.

(** [s.replace(c, "")] for one character *)
Fixpoint remove_char (c : ascii) (s : string) : string :=
  match s with
  | EmptyString => EmptyString
  | String d s' =>
      if Ascii.eqb c d then remove_char c s' else String d (remove_char c s')
  end.

(** The part of [s] after its last [sep], i.e. [s.split(sep)[-1]]. *)
Fixpoint split_last (sep : ascii) (s acc : string) : string :=
  match s with
  | EmptyString => acc
  | String c s' =>
      if Ascii.eqb c sep then split_last sep s' EmptyString
      else split_last sep s' (acc ++ String c EmptyString)
  end.

Definition py_split_last (s : string) (sep : ascii) : string :=
  split_last sep s EmptyString.

(** [s.lstrip(chars)] and [s.rstrip(chars)] *)
Fixpoint lstrip (keep : ascii -> bool) (s : string) : string :=
  match s with
  | EmptyString => EmptyString
  | String c s' => if keep c then lstrip keep s' else s
  end.

Fixpoint rev_str (s : string) : string :=
  match s with
  | EmptyString => EmptyString
  | String c s' => rev_str s' ++ String c EmptyString
  end.

Definition rstrip (strip : ascii -> bool) (s : string) : string :=
  rev_str (lstrip strip (rev_str s)).

(* ------------------------------------------------------------------ *)
(** ** A backtracking matcher for the [re] patterns of the code

    [re.match] anchors at the start of the string only; a leading [^] is
    therefore a no-op and is left out.  [.] matches any character but a
    newline; [$] matches at the end or before a final newline. *)

Inductive rx :=
| AnyStar                                      (* .*         *)
| Lit (l : string)                             (* literal    *)
| ClassRep (cls : ascii -> bool) (lo hi : nat) (* [...]{lo,hi} *)
| EndA                                         (* $          *)
| NotAhead (alts : list string).               (* (?!a|b)    *)

Fixpoint rx_match (p : list rx) (s : string) : bool :=
  match p with
  | [] => true
  | AnyStar :: p' =>
      (fix loop (s : string) : bool :=
         (rx_match p' s ||
          match s with
          | EmptyString => false
          | String c s' => (negb (Ascii.eqb c NL) && loop s')%bool
          end)%bool) s
  | Lit l :: p' =>
      (startswith s l &&
       rx_match p' (substring (String.length l)
                      (String.length s - String.length l) s))%bool
  | ClassRep cls lo hi :: p' =>
      (fix loop (s : string) (k : nat) : bool :=
         ((Nat.leb lo k && Nat.leb k hi && rx_match p' s) ||
          (Nat.ltb k hi &&
           match s with
           | EmptyString => false
           | String c s' => (cls c && loop s' (S k))%bool
           end))%bool) s O
  | EndA :: p' =>
      ((String.eqb s EmptyString || String.eqb s (String NL EmptyString)) &&
       rx_match p' s)%bool
  | NotAhead alts :: p' =>
      (negb (existsb (startswith s) alts) && rx_match p' s)%bool
  end.

(* ------------------------------------------------------------------ *)
(** ** [urllib.parse.urlparse(url).netloc]

    [urlsplit] strips leading C0 controls and spaces, removes every tab,
    carriage return and newline, splits off a scheme made of scheme
    characters and starting with a letter, and takes as netloc what follows
    [//] up to the first [/], [?] or [#].  It raises [ValueError] when the
    netloc has an unmatched bracket ([None] here).  The further check of a
    bracketed IPv6 host made by recent Python versions is not modelled. *)

Definition is_c0_or_space (c : ascii) : bool := Nat.leb (nat_of_ascii c) 32.

Definition is_scheme_char (c : ascii) : bool :=
  (is_alnum c || Ascii.eqb c "+" || Ascii.eqb c "-" || Ascii.eqb c ".")%bool.

Fixpoint find_char (c : ascii) (s : string) : option nat :=
  match s with
  | EmptyString => None
  | String d s' =>
      if Ascii.eqb c d then Some O else option_map S (find_char c s')
  end.

Fixpoint take_until (stop : ascii -> bool) (s : string) : string :=
  match s with
  | EmptyString => EmptyString
  | String c s' => if stop c then EmptyString else String c (take_until stop s')
  end.

Definition drop (n : nat) (s : string) : string :=
  substring n (String.length s - n) s.

Definition url_cleanup (url : string) : string :=
  remove_char NL (remove_char (chr 13) (remove_char (chr 9)
    (lstrip is_c0_or_space url))).

Definition strip_scheme (url : string) : string :=
  match find_char ":" url with
  | Some (S _ as i) =>
      match url with
      | String c0 _ =>
          if (is_alpha c0 && forallb is_scheme_char (list_ascii_of_string (substring 0 i url)))%bool
          then drop (S i) url else url
      | EmptyString => url
      end
  | _ => url
  end.

Definition urlsplit_netloc (url0 : string) : option string :=
  let url := strip_scheme (url_cleanup url0) in
  if startswith url "//" then
    let netloc := take_until (fun c => Ascii.eqb c "/" || Ascii.eqb c "?" || Ascii.eqb c "#")%bool
                    (drop 2 url) in
    if xorb (has_char netloc "[") (has_char netloc "]") then None else Some netloc
  else Some EmptyString.

(* ------------------------------------------------------------------ *)
(** ** [link_validation/validator.py] *)

Definition PHISHING_PATTERNS : list (list rx) := [
  [AnyStar; Lit "-verify"; AnyStar; Lit ".com"; EndA];
  [AnyStar; Lit "-kyc"; AnyStar; Lit ".com"; EndA];
  [AnyStar; Lit "-update"; AnyStar; Lit ".com"; EndA];
  [AnyStar; Lit "-secure"; AnyStar; Lit ".com"; EndA];
  [AnyStar; Lit "-block"; AnyStar; Lit ".com"; EndA];
  [AnyStar; Lit "-suspended"; AnyStar; Lit ".com"; EndA];
  [AnyStar; Lit "-reactivate"; AnyStar; Lit ".com"; EndA];
  [AnyStar; Lit "-confirm"; AnyStar; Lit ".com"; EndA];
  [Lit "upi-"; AnyStar; Lit ".com"; EndA];
  [AnyStar; Lit "-upi.com"; EndA];
  [Lit "sbi-"; AnyStar; Lit ".com"; EndA];
  [Lit "hdfc-"; AnyStar; Lit ".com"; EndA];
  [Lit "icici-"; AnyStar; Lit ".com"; EndA];
  [Lit "paytm-"; AnyStar; Lit ".com"; EndA];
  [AnyStar; Lit "-bank"; AnyStar; Lit ".com"; EndA];
  [AnyStar; Lit "bank-"; AnyStar; Lit ".com"; EndA];
  [AnyStar; Lit "netbanking"; AnyStar; Lit "."; NotAhead ["hdfcbank.com"; "icicibank.com"]]
].

Definition DOMAIN_KEYWORDS : list string := [
  "verify"; "kyc"; "update"; "secure"; "block"; "suspended";
  "reactivate"; "confirm"; "urgent"; "expire"; "bank-login";
  "net-banking"; "account-verify"; "customer-care"].

Definition KEYWORD_EXCEPTIONS : list string :=
  ["hdfcbank.com"; "icicibank.com"; "sbi.co.in"; "onlinesbi.sbi"].

(** [check_domain_blacklist url]["is_blacklisted"]; [None] when
    [urlparse] raises. *)
Definition check_domain_blacklist (url : string) : option bool :=
  match urlsplit_netloc url with
  | None => None
  | Some n =>
      let domain := lower n in
      if existsb (fun pat => rx_match pat domain) PHISHING_PATTERNS then Some true
      else if existsb (fun kw => contains domain kw) DOMAIN_KEYWORDS
      then Some (negb (existsb (String.eqb domain) KEYWORD_EXCEPTIONS))
      else Some false
  end.

Definition TRUSTED_DOMAINS : list string := [
  "google.com"; "gmail.com"; "youtube.com"; "facebook.com"; "meta.com";
  "amazon.com"; "amazonpay.in"; "apple.com"; "microsoft.com"; "netflix.com";
  "twitter.com"; "x.com"; "instagram.com"; "linkedin.com"; "whatsapp.com";
  "wikipedia.org"; "reddit.com"; "github.com"; "stackoverflow.com";
  "hdfcbank.com"; "icicibank.com"; "sbi.co.in"; "onlinesbi.sbi";
  "axisbank.com"; "kotakbank.com"; "yesbank.in"; "pnbindia.in";
  "bankofbaroda.in"; "canarabank.com"; "unionbankofindia.co.in";
  "paytm.com"; "phonepe.com"; "googlepay.com";
  "bhimupi.org.in"; "npci.org.in"; "upi.com";
  "gov.in"; "nic.in"; "uidai.gov.in"; "epfindia.gov.in"].

(** The domain [is_trusted_domain] compares:
    [urlparse(url).netloc.lower().replace('www.', '')]. *)
Definition trusted_key (url : string) : option string :=
  option_map (fun n => py_replace (lower n) "www." "") (urlsplit_netloc url).

Definition is_trusted_domain (url : string) : bool :=
  match trusted_key url with
  | None => false
  | Some domain =>
      (existsb (String.eqb domain) TRUSTED_DOMAINS ||
       existsb (fun t => endswith domain ("." ++ t) || String.eqb domain t)%bool
         TRUSTED_DOMAINS)%bool
  end.

(** What the Stage 1 model artifacts give for a URL: [load_models()]
    failed or found no XGBoost model; feature extraction or prediction
    raised; or the class-0 XGBoost probability and the Isolation Forest
    score (0.5 when that model or the scaler is missing). *)
Inductive ml_outcome :=
| MLUnavailable
| MLError
| MLScores (xgb_prob if_score : Q).

(** The fields of the Stage 1 result that the orchestrator reads. *)
Record stage1_result := { s1_verdict : string; s1_score : Q }.

(** [round(x, 2)] (half-up on the exact value; floats are not modelled). *)
Definition round2 (x : Q) : Q := (Qfloor (x * 100 + (1 # 2)) # 100)%Q.

Definition ml_verdict (xgb ifs : Q) : stage1_result :=
  let risk := (xgb * (8 # 10) + ifs * (2 # 10))%Q in
  let verdict := if Qle_bool (7 # 10) risk then "BLOCK"
                 else if Qle_bool (4 # 10) risk then "WARN" else "OK" in
  {| s1_verdict := verdict; s1_score := round2 risk |}.

Definition validate_url (ml : ml_outcome) (url : string) : stage1_result :=
  if is_trusted_domain url then {| s1_verdict := "OK"; s1_score := 0 |}
  else match check_domain_blacklist url with
       | None => {| s1_verdict := "WARN"; s1_score := 1 # 2 |}   (* except *)
       | Some true => {| s1_verdict := "BLOCK"; s1_score := 1 |}
       | Some false =>
           match ml with
           | MLUnavailable => {| s1_verdict := "WARN"; s1_score := 1 # 2 |}
           | MLError => {| s1_verdict := "WARN"; s1_score := 1 # 2 |}
           | MLScores x y => ml_verdict x y
           end
       end.

(* ------------------------------------------------------------------ *)
(** ** [backend/orchestrator.py]: the link path [validate_link] *)

(** The fields of [validate_url_stage2(url)] that the orchestrator reads;
    every return of [validate_url_stage2] sets all three. *)
Record stage2_result := { s2_success : bool; s2_verdict : string; s2_score : Q }.

(** The Stage 2 call either raises (inside the [try] around it, which
    then sets [stage2_result = None]) or returns a result dict. *)
Inductive s2_outcome :=
| S2Raised (msg : string)
| S2Returned (r : stage2_result).

(** What the environment answers for a URL: the Stage 1 model artifacts and
    the headless-browser scan. *)
Record link_env := { env_ml : string -> ml_outcome; env_stage2 : string -> s2_outcome }.

Record link_result := {
  lr_stage1 : option stage1_result;   (* absent in the [except] branch *)
  lr_stage2 : option stage2_result;
  lr_final_verdict : string;
  lr_risk_score : Q;
  lr_error : option string }.

(** Python's [max(a, b)]: [b] only when [b > a]. *)
Definition py_max (a b : Q) : Q := if Qle_bool b a then a else b.

Definition in_warn_block (v : string) : bool :=
  (String.eqb v "WARN" || String.eqb v "BLOCK")%bool.

(** [validate_link] once [ml_validate(url)] has returned [ml_result]
    ([None] when the call itself raised, caught by the outer [except]). *)
Definition validate_link_with (url : string) (ml_result : option stage1_result)
    (stage2 : s2_outcome) : link_result :=
  match ml_result with
  | None =>
      {| lr_stage1 := None; lr_stage2 := None; lr_final_verdict := "WARN";
         lr_risk_score := 1 # 2; lr_error := Some "validation error" |}
  | Some r1 =>
      let stage1_verdict := s1_verdict r1 in
      let stage1_score := s1_score r1 in
      let stage2_result :=
        if in_warn_block stage1_verdict then
          match stage2 with
          | S2Raised _ => None
          | S2Returned r => Some r
          end
        else None in
      let '(final_verdict, final_score) :=
        match stage2_result with
        | Some r2 =>
            if s2_success r2 then
              let stage2_verdict := s2_verdict r2 in
              let stage2_score := s2_score r2 in
              (if (String.eqb stage1_verdict "BLOCK" || String.eqb stage2_verdict "BLOCK")%bool
               then "BLOCK"
               else if (String.eqb stage1_verdict "WARN" || String.eqb stage2_verdict "WARN")%bool
               then "WARN" else "OK",
               py_max stage1_score stage2_score)
            else (stage1_verdict, stage1_score)
        | None => (stage1_verdict, stage1_score)
        end in
      {| lr_stage1 := Some r1; lr_stage2 := stage2_result;
         lr_final_verdict := final_verdict; lr_risk_score := final_score;
         lr_error := None |}
  end.

Definition validate_link (env : link_env) (url : string) : link_result :=
  validate_link_with url (Some (validate_url (env_ml env url) url)) (env_stage2 env url).

(* ------------------------------------------------------------------ *)
(** ** The QR path for a payload of type [url] *)

(** [x or y] with [x] a float: [y] when [x] is [0.0]. *)
Definition py_or_score (x : option Q) (y : Q) : Q :=
  match x with
  | Some q => if Qeq_bool q 0 then y else q
  | None => y
  end.

(** [risk_score = (stage2.get("score") if stage2 else None) or stage1.get("score", 0)]
    with [stage1 = link_result.get("stage1", {})] and
    [stage2 = link_result.get("stage2", {})]. *)
Definition qr_url_risk (lr : link_result) : Q :=
  let stage1_score := match lr_stage1 lr with Some r1 => s1_score r1 | None => 0%Q end in
  py_or_score (option_map s2_score (lr_stage2 lr)) stage1_score.

Record qr_result := { qr_verdict : string; qr_risk_score : Q; qr_link : link_result }.

(** The [qr_type == "url"] branch of [validate_qr], on the decoded text. *)
Definition validate_qr_url (env : link_env) (qr_data : string) : qr_result :=
  let link_result := validate_link env qr_data in
  {| qr_verdict := lr_final_verdict link_result;
     qr_risk_score := qr_url_risk link_result;
     qr_link := link_result |}.

(* ------------------------------------------------------------------ *)
(** ** The message path [validate_message] *)

Definition suspicious_keywords : list string := [
  "kyc"; "verify"; "suspended"; "blocked"; "expire"; "update";
  "urgent"; "immediately"; "click here"; "limited time";
  "congratulations"; "winner"; "prize"; "lottery"; "cashback";
  "refund"; "reward"; "claim"; "account"; "bank"].

(** [\s] of [re] on ASCII: tab to carriage return, the four separators
    0x1c-0x1f, and space. *)
Definition is_space (c : ascii) : bool :=
  let n := nat_of_ascii c in
  (Nat.leb 9 n && Nat.leb n 13 || Nat.leb 28 n && Nat.leb n 32)%bool.

Fixpoint take_while (p : ascii -> bool) (s : string) : string :=
  match s with
  | EmptyString => EmptyString
  | String c s' => if p c then String c (take_while p s') else EmptyString
  end.

(** [re.findall(r'https?://[^\s]+', message)]: scan from the left; at each
    position try [https://] then [http://], followed by the longest
    non-empty run of non-space characters; resume after a match. *)
Fixpoint findall_urls (fuel : nat) (s : string) : list string :=
  match fuel with
  | O => []
  | S f =>
      match s with
      | EmptyString => []
      | String _ s' =>
          let try_scheme (sch : string) : option (string * string) :=
            if startswith s sch then
              let rest := drop (String.length sch) s in
              let run := take_while (fun c => negb (is_space c)) rest in
              if String.eqb run EmptyString then None
              else Some (sch ++ run, drop (String.length run) rest)
            else None in
          match try_scheme "https://" with
          | Some (m, rest) => m :: findall_urls f rest
          | None =>
              match try_scheme "http://" with
              | Some (m, rest) => m :: findall_urls f rest
              | None => findall_urls f s'
              end
          end
      end
  end.

(** The URLs [validate_message] passes to [validate_link]:
    each match after [url.rstrip('.,;:)]}')]. *)
Definition extracted_urls (message : string) : list string :=
  map (rstrip (fun c => has_char ".,;:)]}" c))
      (findall_urls (S (String.length message)) message).

(** [\w] of [re] on ASCII. *)
Definition is_word (c : ascii) : bool := (is_alnum c || Ascii.eqb c "_")%bool.

(** The maximal runs of word characters. *)
Fixpoint word_runs (s cur : string) : list string :=
  match s with
  | EmptyString => if String.eqb cur EmptyString then [] else [cur]
  | String c s' =>
      if is_word c then word_runs s' (cur ++ String c EmptyString)
      else if String.eqb cur EmptyString then word_runs s' EmptyString
      else cur :: word_runs s' EmptyString
  end.

(** [re.findall(r'\b\d{10}\b', message)] is non-empty exactly when some
    maximal run of word characters is ten digits. *)
Definition has_phone (message : string) : bool :=
  existsb (fun w => Nat.eqb (String.length w) 10 && forallb is_digit (list_ascii_of_string w))%bool
    (word_runs message EmptyString).

Definition url_contribution (url_verdict : string) : Q :=
  if String.eqb url_verdict "BLOCK" then 1 # 2
  else if String.eqb url_verdict "WARN" then 3 # 10 else 0%Q.

Record message_result := {
  mr_verdict : string;
  mr_risk_score : Q;
  mr_extracted : list (string * string) }.   (* (url, verdict) *)

Definition validate_message (env : link_env) (message : string) : message_result :=
  let message_lower := lower message in
  let found_keywords := filter (contains message_lower) suspicious_keywords in
  let risk_kw := if Nat.eqb (length found_keywords) 0 then 0%Q
                 else ((15 # 100) * inject_Z (Z.of_nat (length found_keywords)))%Q in
  let url_results :=
    map (fun url => (url, lr_final_verdict (validate_link env url)))
        (extracted_urls message) in
  let risk_urls :=
    fold_left (fun acc uv => (acc + url_contribution (snd uv))%Q) url_results risk_kw in
  let risk_score := if has_phone message then (risk_urls + (1 # 10))%Q else risk_urls in
  let verdict := if Qle_bool (7 # 10) risk_score then "BLOCK"
                 else if Qle_bool (3 # 10) risk_score then "WARN" else "OK" in
  {| mr_verdict := verdict; mr_risk_score := Qmin risk_score 1;
     mr_extracted := url_results |}.

(* ------------------------------------------------------------------ *)
(** ** [qr_validation/vpa_validator.py]: [validate_vpa_format] *)

(** The class [[a-zA-Z0-9.\-_]] of both halves of the VPA pattern. *)
Definition vpa_cls (c : ascii) : bool :=
  (is_alnum c || Ascii.eqb c "." || Ascii.eqb c "-" || Ascii.eqb c "_")%bool.

(** [^[a-zA-Z0-9.\-_]{2,256}@[a-zA-Z0-9.\-_]{2,128}$] *)
Definition VPA_PATTERN : list rx :=
  [ClassRep vpa_cls 2 256; Lit "@"; ClassRep vpa_cls 2 128; EndA].

Definition KNOWN_PROVIDERS : list (string * string) := [
  ("oksbi", "State Bank of India"); ("sbi", "State Bank of India");
  ("okhdfcbank", "HDFC Bank"); ("hdfcbank", "HDFC Bank");
  ("okaxis", "Axis Bank"); ("axisbank", "Axis Bank");
  ("okicici", "ICICI Bank"); ("icici", "ICICI Bank");
  ("federal", "Federal Bank"); ("pnb", "Punjab National Bank");
  ("boi", "Bank of India"); ("citi", "Citibank");
  ("sc", "Standard Chartered"); ("rbl", "RBL Bank");
  ("kotak", "Kotak Mahindra Bank"); ("indusind", "IndusInd Bank");
  ("yesbank", "Yes Bank"); ("idbi", "IDBI Bank");
  ("unionbank", "Union Bank"); ("canara", "Canara Bank");
  ("bob", "Bank of Baroda");
  ("paytm", "Paytm"); ("paytmqr", "Paytm QR");
  ("pthdfc", "Paytm (HDFC)"); ("ptaxis", "Paytm (Axis)");
  ("ptsbi", "Paytm (SBI)"); ("ybl", "PhonePe");
  ("phonepe", "PhonePe"); ("apl", "Amazon Pay");
  ("amazonpay", "Amazon Pay"); ("ibl", "BHIM (Axis)");
  ("bim", "BHIM"); ("gpay", "Google Pay");
  ("googlepay", "Google Pay"); ("okgpay", "Google Pay");
  ("fbl", "Freecharge"); ("freecharge", "Freecharge");
  ("mobikwik", "MobiKwik"); ("ola", "Ola Money");
  ("jio", "Jio Money"); ("airtel", "Airtel Payments Bank");
  ("airtelbank", "Airtel Payments Bank"); ("postbank", "India Post Payments Bank");
  ("payzapp", "PayZapp (HDFC)"); ("pockets", "Pockets (ICICI)");
  ("imobile", "iMobile (ICICI)");
  ("razorpay", "Razorpay"); ("instamojo", "Instamojo");
  ("cashfree", "Cashfree"); ("ccavenue", "CCAvenue");
  ("billdesk", "BillDesk"); ("bharatpe", "BharatPe");
  ("phonepeqr", "PhonePe QR"); ("superyes", "SuperMoney");
  ("supermoney", "SuperMoney");
  ("saraswat", "Saraswat Bank"); ("kvb", "Karur Vysya Bank");
  ("dcb", "DCB Bank"); ("tamilnadmercantile", "Tamilnad Mercantile Bank");
  ("jkb", "Jammu & Kashmir Bank"); ("iob", "Indian Overseas Bank");
  ("indianbank", "Indian Bank"); ("corpbank", "Corporation Bank");
  ("equitas", "Equitas Small Finance Bank"); ("ujjivan", "Ujjivan Small Finance Bank");
  ("au", "AU Small Finance Bank"); ("fino", "Fino Payments Bank");
  ("janabank", "Jana Small Finance Bank");
  ("sbicard", "SBI Card"); ("axiscard", "Axis Bank Credit Card");
  ("hdfccard", "HDFC Credit Card"); ("icicicard", "ICICI Credit Card")].

(** [KNOWN_PROVIDERS.get(key)] *)
Fixpoint assoc_get (k : string) (l : list (string * string)) : option string :=
  match l with
  | [] => None
  | (k', v) :: l' => if String.eqb k k' then Some v else assoc_get k l'
  end.

Record vpa_result := { vr_verdict : string; vr_risk_score : Q; vr_provider : option string }.

(** [vpa.split('@')[-1].lower()] *)
Definition vpa_provider (vpa : string) : string := lower (py_split_last vpa "@").

Definition validate_vpa_format (vpa : string) : vpa_result :=
  if negb (rx_match VPA_PATTERN vpa) then
    {| vr_verdict := "BLOCK"; vr_risk_score := 9 # 10; vr_provider := None |}
  else
    let provider := vpa_provider vpa in
    match assoc_get provider KNOWN_PROVIDERS with
    | Some name => {| vr_verdict := "OK"; vr_risk_score := 1 # 10; vr_provider := Some name |}
    | None => {| vr_verdict := "WARN"; vr_risk_score := 1 # 2; vr_provider := Some provider |}
    end.

(* ------------------------------------------------------------------ *)
(** ** [stage2_dynamic/fallback_engine.py]: [fallback_risk]
    (the [reasons] list is left out) *)

Record fallback_result := { fb_level : string; fb_score : Q; fb_action : string }.

Definition fallback_risk (static_score : Q) (hard_rule_hits : Z) (tls_ok upi_in_url : bool)
    (whois_age_days : option Z) (in_blacklist : bool) : fallback_result :=
  let risk := (static_score * 100)%Q in
  let risk := if Z.eqb hard_rule_hits 0 then risk
              else (risk + inject_Z (20 * Z.min hard_rule_hits 3))%Q in
  if in_blacklist then {| fb_level := "HIGH"; fb_score := 100; fb_action := "BLOCK" |}
  else
    let risk := if tls_ok then risk else (risk + 25)%Q in
    let risk := if upi_in_url then (risk + 30)%Q else risk in
    let risk := match whois_age_days with
                | Some d => if Z.ltb d 7 then (risk + 30)%Q
                            else if Z.ltb d 30 then (risk + 15)%Q
                            else if Z.ltb d 180 then (risk + 5)%Q else risk
                | None => risk
                end in
    (* [max(0, min(100, risk))] *)
    let score := if Qle_bool risk 100 then risk else 100%Q in
    let score := if Qle_bool score 0 then 0%Q else score in
    if Qle_bool 70 score then {| fb_level := "HIGH"; fb_score := score; fb_action := "BLOCK" |}
    else if Qle_bool 40 score then {| fb_level := "MEDIUM"; fb_score := score; fb_action := "CHALLENGE" |}
    else {| fb_level := "LOW"; fb_score := score; fb_action := "ALLOW_WITH_LOG" |}.

(* ------------------------------------------------------------------ *)
(** ** [vpa_validation/vpa_reputation.py] *)

Record reputation := { reports : Z; trust : Q }.

(** The module-level dict [VPA_REPUTATION]. *)
Abbreviation rep_store := (gmap string reputation).

Definition default_reputation : reputation := {| reports := 0; trust := 1 # 2 |}.

(** [get_reputation(vpa)]: the value returned and the store afterwards. *)
Definition get_reputation (st : rep_store) (vpa : string) : reputation * rep_store :=
  let vpa := lower vpa in
  (default default_reputation (st !! vpa), st).

Definition update_reputation (st : rep_store) (vpa : string) (is_scam : bool) : rep_store :=
  let vpa := lower vpa in
  let st := match st !! vpa with
            | Some _ => st
            | None => <[vpa := default_reputation]> st
            end in
  let r := default default_reputation (st !! vpa) in
  if is_scam then
    <[vpa := {| reports := reports r + 1; trust := trust r * (3 # 4) |}]> st
  else
    (* [min(1.0, trust + 0.05)] *)
    let t := (trust r + (1 # 20))%Q in
    <[vpa := {| reports := reports r; trust := if Qle_bool 1 t then 1%Q else t |}]> st.

(* ------------------------------------------------------------------ *)
(** ** [backend/orchestrator.py]: [validate_input] and its cache *)

(** Values stored in a result dict: strings, booleans, ints, and any other
    object a validator puts there (lists, floats, nested dicts), named by
    an index. *)
Inductive pyval :=
| VStr (s : string)
| VBool (b : bool)
| VInt (z : Z)
| VObj (n : nat).

#[global] Instance pyval_eq_dec : EqDecision pyval.
Proof. solve_decision. Defined.

Abbreviation pydict := (gmap string pyval).

(** An entry of [_VALIDATION_CACHE]: the result and its [datetime.now()]
    timestamp (microseconds). *)
Record cache_entry := { ce_result : pydict; ce_timestamp : Z }.

Abbreviation vcache := (gmap string cache_entry).

(** [_CACHE_EXPIRY_HOURS = 24], in microseconds. *)
Definition CACHE_EXPIRY : Z := 24 * 3600 * 1000000.

(** A path handler either raises (with [str(e)]) or returns a dict. *)
Inductive outcome :=
| Raise (msg : string)
| Return (d : pydict).

(** The clock readings of one call: [datetime.now()] in [get_from_cache],
    [time.time()] at the start and after the handler, and [datetime.now()]
    in [save_to_cache] (all in microseconds). *)
Record clock := { now_lookup : Z; t_start : Z; t_end : Z; now_save : Z }.

Section Orchestrator.

(** [get_cache_key] (an MD5 digest of the input) and the four path
    handlers are parameters of the orchestrator. *)
Variable get_cache_key : string -> option string -> option string -> string.
Variables handle_link handle_vpa handle_message : option string -> outcome.
Variable handle_qr : option string -> outcome.

Definition get_from_cache (cache : vcache) (key : string) (now : Z)
    : option pydict * vcache :=
  match cache !! key with
  | Some e =>
      if Z.ltb (now - ce_timestamp e) CACHE_EXPIRY then (Some (ce_result e), cache)
      else (None, delete key cache)
  | None => (None, cache)
  end.

Definition save_to_cache (cache : vcache) (key : string) (result : pydict) (now : Z)
    : vcache :=
  <[key := {| ce_result := result; ce_timestamp := now |}]> cache.

Definition dispatch (input_type : string) (value file_data : option string) : outcome :=
  if String.eqb input_type "link" then handle_link value
  else if String.eqb input_type "vpa" then handle_vpa value
  else if String.eqb input_type "message" then handle_message value
  else if String.eqb input_type "qr" then handle_qr file_data
  else Return {[ "error" := VStr "Invalid type" ]}.

(** [if cached_result:] -- a dict is true when non-empty. *)
Definition cache_hit (cached : option pydict) : option pydict :=
  match cached with
  | Some d => if decide (d = ∅) then None else Some d
  | None => None
  end.

(** [validate_input]: the returned dict and the cache afterwards. *)
Definition validate_input (cache : vcache) (input_type : string)
    (value file_data : option string) (clk : clock) : pydict * vcache :=
  let cache_key := get_cache_key input_type value file_data in
  let '(cached_result, cache) := get_from_cache cache cache_key (now_lookup clk) in
  let ms := VInt (Z.quot (t_end clk - t_start clk) 1000) in
  match cache_hit cached_result with
  | Some d => (<["response_time_ms" := ms]> (<["cached" := VBool true]> d), cache)
  | None =>
      match dispatch input_type value file_data with
      | Raise e => ({[ "error" := VStr e ]}, cache)
      | Return r =>
          let result := <["response_time_ms" := ms]> (<["cached" := VBool false]> r) in
          let cache := if decide (result !! "error" = None)
                       then save_to_cache cache cache_key result (now_save clk)
                       else cache in
          (result, cache)
      end
  end.

(** The call misses the cache. *)
Definition cache_miss (cache : vcache) (key : string) (now : Z) : Prop :=
  cache_hit (fst (get_from_cache cache key now)) = None.

End Orchestrator.

(* ------------------------------------------------------------------ *)
(** ** [stage2_dynamic/fallback_engine.py]: [domain_from_url] *)

(** [s.split(sep, 1)] when [sep] occurs: the parts before and after its
    first occurrence. *)
Fixpoint split_once (sep s : string) : option (string * string) :=
  if startswith s sep then Some (EmptyString, drop (String.length sep) s)
  else match s with
       | EmptyString => None
       | String c s' =>
           option_map (fun '(a, b) => (String c a, b)) (split_once sep s')
       end.

(** [s.strip()] *)
Definition strip (s : string) : string := rstrip is_space (lstrip is_space s).

Definition domain_from_url (url : string) : string :=
  let u := strip (lower url) in
  let u := match split_once "://" u with Some (_, b) => b | None => u end in
  let u := match split_once "/" u with Some (a, _) => a | None => u end in
  match split_once ":" u with Some (a, _) => a | None => u end.

(* ------------------------------------------------------------------ *)
(** ** [stage2_dynamic/stage2_validator.py]: [validate_url_stage2] *)

(** What [scan_url_headless(url)] gives: it raises; it returns no data
    ([None], an empty dict or a non-dict); or a dict, of which the code
    reads [risk_score] (absent: 0.5), the truth of
    [behavioral_flags.trusted_domain] and the truth of [error]. *)
Inductive scan_outcome :=
| ScanRaised
| ScanNoData
| ScanDict (risk_score : option Q) (trusted_domain has_error : bool).

Definition validate_url_stage2 (scan : scan_outcome) : stage2_result :=
  match scan with
  | ScanRaised => {| s2_success := false; s2_verdict := "WARN"; s2_score := 1 # 2 |}
  | ScanNoData => {| s2_success := false; s2_verdict := "WARN"; s2_score := 1 # 2 |}
  | ScanDict risk trusted err =>
      let score := default (1 # 2) risk in
      if trusted then {| s2_success := true; s2_verdict := "OK"; s2_score := 0 |}
      else if err then {| s2_success := false; s2_verdict := "WARN"; s2_score := 1 # 2 |}
      else
        let verdict := if Qle_bool (7 # 10) score then "BLOCK"
                       else if Qle_bool (4 # 10) score then "WARN" else "OK" in
        {| s2_success := true; s2_verdict := verdict; s2_score := score |}
  end.

(* ------------------------------------------------------------------ *)
(** ** [qr_validation/qr_parser.py] and [qr_validation/qr_utils.py] *)

Definition payment_keywords : list string :=
  ["bhim"; "phonepe"; "paytmmp"; "paytmqr"; "bharatpe"; "gpay"].

(** [s.isalnum()]: non-empty and every character alphanumeric. *)
Definition isalnum (s : string) : bool :=
  (negb (String.eqb s EmptyString) && forallb is_alnum (list_ascii_of_string s))%bool.

(** [qr_parser.identify_qr_content_type] *)
Definition identify_qr_content_type (data : string) : string :=
  let data_lower := lower data in
  if (startswith data "00020101" || startswith data "00020201")%bool then "protected_payment"
  else if (negb (startswith data "http") &&
           existsb (contains data_lower) payment_keywords)%bool then "protected_payment"
  else if (startswith data "upi://" || startswith data "upi://pay")%bool then "upi"
  else if (startswith data "http://" || startswith data "https://")%bool then "url"
  else if (has_char data "@" &&
           negb (startswith data "http" || startswith data "upi" || startswith data "mailto") &&
           (* [^[a-zA-Z0-9.\-_]{2,}@[a-zA-Z0-9.\-_]{2,}$]: no run can be longer
              than the string, so its length bounds the repetitions *)
           rx_match [ClassRep vpa_cls 2 (String.length data); Lit "@";
                     ClassRep vpa_cls 2 (String.length data); EndA] data)%bool
  then "vpa"
  else if (startswith data "geo:" || contains data "google.navigation:")%bool then "geo"
  else if startswith data "tel:" then "tel"
  else if startswith data "mailto:" then "mailto"
  else if startswith data "sms:" then "sms"
  else if startswith data "WIFI:" then "wifi"
  else if startswith data "BEGIN:VCARD" then "vcard"
  else if startswith data "intent://" then "intent"
  else if (Nat.ltb (String.length data) 200 &&
           isalnum (remove_char NL (remove_char "_" (remove_char "-" (remove_char " " data)))))%bool
  then "text"
  else "unknown".

(** [qr_utils.is_protected_payment_qr] *)
Definition is_protected_payment_qr (data : string) : bool :=
  let data_lower := lower data in
  if (startswith data "00020101" || startswith data "00020201")%bool then true
  else if startswith data "http" then false
  else existsb (contains data_lower)
         ["gpay"; "phonepe"; "paytmmp"; "paytmqr"; "bharatpe"; "bhim"].

(** [re.search(r'pa=([^&]+)', s).group(1)]: the first [pa=] followed by
    at least one character other than [&], and the longest such run. *)
Fixpoint extract_vpa_from_upi (s : string) : option string :=
  match s with
  | EmptyString => None
  | String _ s' =>
      let run := take_while (fun c => negb (Ascii.eqb c "&")) (drop 3 s) in
      if (startswith s "pa=" && negb (String.eqb run EmptyString))%bool then Some run
      else extract_vpa_from_upi s'
  end.

(** [qr_utils.get_qr_description]: verdict and risk (reasons left out). *)
Definition get_qr_description (qr_type : string) : string * Q :=
  if String.eqb qr_type "protected_payment" then ("OK", 5 # 100)
  else if String.eqb qr_type "upi" then ("OK", 2 # 10)
  else if String.eqb qr_type "geo" then ("OK", 1 # 10)
  else if String.eqb qr_type "vpa" then ("OK", 2 # 10)
  else if String.eqb qr_type "tel" then ("OK", 1 # 10)
  else if String.eqb qr_type "mailto" then ("OK", 1 # 10)
  else if String.eqb qr_type "sms" then ("OK", 1 # 10)
  else if String.eqb qr_type "wifi" then ("OK", 1 # 10)
  else if String.eqb qr_type "vcard" then ("OK", 1 # 10)
  else if String.eqb qr_type "intent" then ("OK", 15 # 100)
  else if String.eqb qr_type "text" then ("OK", 15 # 100)
  else if String.eqb qr_type "url" then ("WARN", 1 # 2)
  else if String.eqb qr_type "unknown" then ("WARN", 4 # 10)
  else ("WARN", 1 # 2).

Record qr_answer := { qa_verdict : string; qa_risk_score : Q }.

Section QRPath.

(** [urllib.parse.unquote], applied to the VPA by [validate_qr] and again
    by [validate_vpa], is a parameter. *)
Variable unquote : string -> string.

(** [orchestrator.validate_vpa] (its [except] fallback only runs when the
    import of [validate_vpa_format] fails). *)
Definition validate_vpa (vpa : string) : vpa_result := validate_vpa_format (unquote vpa).

(** [validate_qr] on the text [decode_qr] found in the image ([None]:
    the error dict [parse_qr_image] returns when no text was decoded). *)
Definition validate_qr_decoded (env : link_env) (decoded : string) : option qr_answer :=
  if String.eqb decoded EmptyString then None
  else
    let qr_type := identify_qr_content_type decoded in
    if String.eqb qr_type "url" then
      let r := validate_qr_url env decoded in
      Some {| qa_verdict := qr_verdict r; qa_risk_score := qr_risk_score r |}
    else if String.eqb qr_type "upi" then
      match extract_vpa_from_upi decoded with
      | Some vpa =>
          let v := validate_vpa (unquote vpa) in
          Some {| qa_verdict := vr_verdict v; qa_risk_score := vr_risk_score v |}
      | None => Some {| qa_verdict := "WARN"; qa_risk_score := 1 # 2 |}
      end
    else if String.eqb qr_type "vpa" then
      let v := validate_vpa decoded in
      Some {| qa_verdict := vr_verdict v; qa_risk_score := vr_risk_score v |}
    else
      let '(verdict, risk) := get_qr_description qr_type in
      Some {| qa_verdict := verdict; qa_risk_score := risk |}.

End QRPath.

(* ------------------------------------------------------------------ *)
(** ** [stage2_dynamic/headless_browser.py]: [is_trusted_domain] *)

Module Headless.

(** [headless_browser.is_trusted_domain], which [scan_url_headless]
    calls on [urlparse(url).netloc.lower().replace('www.', '')]; the
    module's [TRUSTED_DOMAINS] set holds the same 40 domains as the
    validator's. *)
Definition is_trusted_domain (domain : string) : bool :=
  let domain := lower domain in
  let domain := if startswith domain "www." then drop 4 domain else domain in
  (existsb (String.eqb domain) TRUSTED_DOMAINS ||
   existsb (fun t => endswith domain ("." ++ t) || String.eqb domain t)%bool
     TRUSTED_DOMAINS)%bool.

End Headless.

(* ================================================================== *)
(** * Properties *)

(** The final-verdict rule as the specification words it: [BLOCK] if
    either stage says [BLOCK], else [WARN] if either says [WARN], else [OK]. *)
Definition most_severe (v1 v2 : string) : string :=
  if (String.eqb v1 "BLOCK" || String.eqb v2 "BLOCK")%bool then "BLOCK"
  else if (String.eqb v1 "WARN" || String.eqb v2 "WARN")%bool then "WARN"
  else "OK".

Lemma py_max_Qmax (a b : Q) : py_max a b = Qmax a b.
Proof.
  unfold py_max, Qmax, GenericMinMax.gmax.
  destruct (Qle_bool b a) eqn:E.
  - apply Qle_bool_iff in E. destruct (a ?= b)%Q eqn:C; try reflexivity.
    rewrite <- Qlt_alt in C. exfalso. apply (Qlt_not_le a b); assumption.
  - destruct (a ?= b)%Q eqn:C; try reflexivity.
    + apply Qeq_alt in C. exfalso.
      assert (b <= a)%Q as H by (rewrite C; apply Qle_refl).
      apply Qle_bool_iff in H. congruence.
    + rewrite <- Qgt_alt in C. exfalso.
      assert (b <= a)%Q as H by (apply Qlt_le_weak; exact C).
      apply Qle_bool_iff in H. congruence.
Qed.

(** C1: on the link path, when Stage 2 ran and reported success the risk
    score is the maximum of the two stage scores and the verdict the most
    severe of the two; otherwise (Stage 2 not run, raised, or reported
    failure) verdict and score are Stage 1's. *)
Theorem validate_link_combines_stages (env : link_env) (url : string) :
  let r1 := validate_url (env_ml env url) url in
  let lr := validate_link env url in
  lr_stage1 lr = Some r1 /\
  (forall r2 : stage2_result, lr_stage2 lr = Some r2 -> s2_success r2 = true ->
     lr_risk_score lr = Qmax (s1_score r1) (s2_score r2) /\
     lr_final_verdict lr = most_severe (s1_verdict r1) (s2_verdict r2)) /\
  ((forall r2 : stage2_result, lr_stage2 lr = Some r2 -> s2_success r2 = false) ->
     lr_final_verdict lr = s1_verdict r1 /\ lr_risk_score lr = s1_score r1).
Proof.
  cbn zeta. unfold validate_link, validate_link_with.
  set (r1 := validate_url (env_ml env url) url).
  set (s2 := env_stage2 env url).
  destruct (in_warn_block (s1_verdict r1)) eqn:W.
  - destruct s2 as [msg | r] eqn:E2; simpl.
    + split; [reflexivity | split]; [intros r2 H; discriminate H | auto].
    + destruct (s2_success r) eqn:S; simpl.
      * split; [reflexivity | split].
        -- intros r2 H HS. injection H as <-. split; [apply py_max_Qmax | reflexivity].
        -- intros H. specialize (H r eq_refl). congruence.
      * split; [reflexivity | split].
        -- intros r2 H HS. injection H as <-. congruence.
        -- auto.
  - simpl. split; [reflexivity | split]; [intros r2 H; discriminate H | auto].
Qed.

Lemma validate_link_combines_stages_witness :
  let env := {| env_ml := fun _ => MLScores (1 # 2) (1 # 2);
                env_stage2 := fun _ => S2Returned
                  {| s2_success := true; s2_verdict := "BLOCK"; s2_score := 9 # 10 |} |} in
  lr_risk_score (validate_link env "https://example.com/") = 9 # 10 /\
  lr_final_verdict (validate_link env "https://example.com/") = "BLOCK".
Proof.
  intros env.
  destruct (validate_link_combines_stages env "https://example.com/") as [_ [H _]].
  destruct (H {| s2_success := true; s2_verdict := "BLOCK"; s2_score := 9 # 10 |}
              ltac:(vm_compute; reflexivity) eq_refl) as [H1 H2].
  split; [rewrite H1; vm_compute; reflexivity | rewrite H2; vm_compute; reflexivity].
Defined.

(** C7: [validate_vpa_format] blocks (risk 0.9) every string the pattern
    rejects; for a string the pattern accepts it answers [OK] (risk 0.1,
    the institution's name) when the lowercased part after the last [@] is
    a known provider, and [WARN] (risk 0.5) otherwise. *)
Theorem validate_vpa_format_cases (vpa : string) :
  (rx_match VPA_PATTERN vpa = false ->
     vr_verdict (validate_vpa_format vpa) = "BLOCK" /\
     vr_risk_score (validate_vpa_format vpa) = 9 # 10) /\
  (forall name, rx_match VPA_PATTERN vpa = true ->
     assoc_get (vpa_provider vpa) KNOWN_PROVIDERS = Some name ->
     vr_verdict (validate_vpa_format vpa) = "OK" /\
     vr_risk_score (validate_vpa_format vpa) = 1 # 10 /\
     vr_provider (validate_vpa_format vpa) = Some name) /\
  (rx_match VPA_PATTERN vpa = true ->
     assoc_get (vpa_provider vpa) KNOWN_PROVIDERS = None ->
     vr_verdict (validate_vpa_format vpa) = "WARN" /\
     vr_risk_score (validate_vpa_format vpa) = 1 # 2).
Proof.
  unfold validate_vpa_format.
  split; [|split].
  - intros H. rewrite H. simpl. auto.
  - intros name H Hk. rewrite H. cbn -[assoc_get vpa_provider]. rewrite Hk. auto.
  - intros H Hk. rewrite H. cbn -[assoc_get vpa_provider]. rewrite Hk. auto.
Qed.

Lemma validate_vpa_format_cases_witness :
  vr_verdict (validate_vpa_format "bad_format") = "BLOCK" /\
  vr_provider (validate_vpa_format "user@oksbi") = Some "State Bank of India" /\
  vr_verdict (validate_vpa_format "user@unknownprovider123") = "WARN".
Proof.
  split; [|split].
  - apply (proj1 (validate_vpa_format_cases "bad_format")). vm_compute. reflexivity.
  - apply (proj1 (proj2 (validate_vpa_format_cases "user@oksbi")) "State Bank of India");
      vm_compute; reflexivity.
  - apply (proj2 (proj2 (validate_vpa_format_cases "user@unknownprovider123")));
      vm_compute; reflexivity.
Defined.

(** C8: with [in_blacklist = true], [fallback_risk] returns level [HIGH],
    score 100 and action [BLOCK], whatever its other arguments. *)
Theorem fallback_risk_blacklist (static_score : Q) (hard_rule_hits : Z)
    (tls_ok upi_in_url : bool) (whois_age_days : option Z) :
  fallback_risk static_score hard_rule_hits tls_ok upi_in_url whois_age_days true =
  {| fb_level := "HIGH"; fb_score := 100; fb_action := "BLOCK" |}.
Proof. reflexivity. Qed.

Lemma get_from_cache_sub (cache : vcache) (key : string) (now : Z) :
  forall k ce, (snd (get_from_cache cache key now)) !! k = Some ce -> cache !! k = Some ce.
Proof.
  unfold get_from_cache. intros k ce.
  destruct (cache !! key) as [e|] eqn:E; [|auto].
  destruct (Z.ltb _ _); simpl; [auto|].
  destruct (decide (key = k)) as [->|Hne].
  - rewrite lookup_delete_eq. discriminate.
  - rewrite lookup_delete_ne by exact Hne. auto.
Qed.

(** On a miss, the key is absent from the cache, or holds an empty dict. *)
Lemma get_from_cache_miss (cache : vcache) (key : string) (now : Z) :
  cache_hit (fst (get_from_cache cache key now)) = None ->
  (snd (get_from_cache cache key now)) !! key = None \/
  exists ts, (snd (get_from_cache cache key now)) !! key =
             Some {| ce_result := ∅; ce_timestamp := ts |}.
Proof.
  unfold get_from_cache, cache_hit. intros Hm.
  destruct (cache !! key) as [[r ts]|] eqn:E; [|left; exact E].
  destruct (Z.ltb _ _); simpl in *.
  - destruct (decide (r = ∅)) as [->|Hne]; [|discriminate].
    right. exists ts. exact E.
  - left. apply lookup_delete_eq.
Qed.

Lemma miss_entry_not_result (c : vcache) (key : string) (res : pydict) (ts : Z) :
  (c !! key = None \/ exists ts', c !! key = Some {| ce_result := ∅; ce_timestamp := ts' |}) ->
  res !! "error" <> None ->
  c !! key <> Some {| ce_result := res; ce_timestamp := ts |}.
Proof.
  intros [H|[ts' H]] Herr; rewrite H; [discriminate|].
  intros Heq. injection Heq as Hr _. subst res.
  rewrite lookup_empty in Herr. congruence.
Qed.

(** C2: when the dispatched handler raises, [validate_input] returns
    exactly [{error: str(e)}]; on a cache miss the returned result is
    stored under its key if and only if it has no ["error"] key; and a
    cache holding no error result still holds none after any call. *)
Theorem validate_input_error_handling
    (get_cache_key : string -> option string -> option string -> string)
    (handle_link handle_vpa handle_message handle_qr : option string -> outcome)
    (cache : vcache) (input_type : string) (value file_data : option string)
    (clk : clock) (res : pydict) (cache' : vcache) :
  validate_input get_cache_key handle_link handle_vpa handle_message handle_qr
    cache input_type value file_data clk = (res, cache') ->
  let key := get_cache_key input_type value file_data in
  (cache_miss cache key (now_lookup clk) ->
     (forall e, dispatch handle_link handle_vpa handle_message handle_qr
                  input_type value file_data = Raise e ->
                res = {[ "error" := VStr e ]}) /\
     (cache' !! key = Some {| ce_result := res; ce_timestamp := now_save clk |} <->
      res !! "error" = None)) /\
  ((forall k ce, cache !! k = Some ce -> ce_result ce !! "error" = None) ->
   forall k ce, cache' !! k = Some ce -> ce_result ce !! "error" = None).
Proof.
  intros Hrun. cbv zeta. unfold cache_miss.
  unfold validate_input in Hrun.
  set (key := get_cache_key input_type value file_data) in *.
  pose proof (get_from_cache_sub cache key (now_lookup clk)) as Hsub.
  pose proof (get_from_cache_miss cache key (now_lookup clk)) as Hmiss.
  destruct (get_from_cache cache key (now_lookup clk)) as [cached cache1].
  simpl in Hsub, Hmiss |- *.
  destruct (cache_hit cached) as [d|] eqn:Hhit.
  - injection Hrun as <- <-. split; [intros H; discriminate H|].
    intros Hinv k ce Hk. eapply Hinv, Hsub, Hk.
  - specialize (Hmiss eq_refl).
    destruct (dispatch handle_link handle_vpa handle_message handle_qr
                input_type value file_data) as [e|r] eqn:Hd.
    + injection Hrun as <- <-. split.
      * intros _. split; [intros e' He'; injection He' as ->; reflexivity|].
        split; [intros H; exfalso; revert H; apply miss_entry_not_result;
                  [exact Hmiss | rewrite lookup_singleton_eq; discriminate]
               | rewrite lookup_singleton_eq; discriminate].
      * intros Hinv k ce Hk. eapply Hinv, Hsub, Hk.
    + set (result := <["response_time_ms" := _]> (<["cached" := VBool false]> r)) in Hrun.
      destruct (decide (result !! "error" = None)) as [Hok|Herr];
        injection Hrun as <- <-.
      * split.
        -- intros _. split; [intros e' He'; discriminate He'|].
           unfold save_to_cache. rewrite lookup_insert_eq. split; auto.
        -- intros Hinv k ce Hk. unfold save_to_cache in Hk.
           destruct (decide (key = k)) as [<-|Hne].
           ++ rewrite lookup_insert_eq in Hk. injection Hk as <-. exact Hok.
           ++ rewrite lookup_insert_ne in Hk by exact Hne. eapply Hinv, Hsub, Hk.
      * split.
        -- intros _. split; [intros e' He'; discriminate He'|].
           split; [intros H; exfalso; revert H; apply miss_entry_not_result; assumption
                  | intros H; contradiction].
        -- intros Hinv k ce Hk. eapply Hinv, Hsub, Hk.
Qed.

Lemma validate_input_error_handling_witness :
  (validate_input (fun t _ _ => t)
    (fun _ => Raise "boom") (fun _ => Return ∅) (fun _ => Return ∅)
    (fun _ => Return ∅) ∅ "link" (Some "https://example.com/") None
    {| now_lookup := 0; t_start := 0; t_end := 5000; now_save := 0 |} =
  (({[ "error" := VStr "boom" ]} : pydict), (∅ : vcache))) /\
  (∅ : vcache) !! "link" <> Some {| ce_result := {[ "error" := VStr "boom" ]}; ce_timestamp := 0 |}.
Proof.
  assert (Hrun : validate_input (fun t _ _ => t)
    (fun _ => Raise "boom") (fun _ => Return ∅) (fun _ => Return ∅)
    (fun _ => Return ∅) ∅ "link" (Some "https://example.com/") None
    {| now_lookup := 0; t_start := 0; t_end := 5000; now_save := 0 |} =
    (({[ "error" := VStr "boom" ]} : pydict), (∅ : vcache))) by reflexivity.
  split; [exact Hrun|].
  destruct (validate_input_error_handling (fun t _ _ => t)
              (fun _ => Raise "boom") (fun _ => Return ∅) (fun _ => Return ∅)
              (fun _ => Return ∅) ∅ "link" (Some "https://example.com/") None
              {| now_lookup := 0; t_start := 0; t_end := 5000; now_save := 0 |}
              _ _ Hrun) as [H _].
  destruct (H eq_refl) as [_ Hiff].
  intros Hin. apply Hiff in Hin. rewrite lookup_singleton_eq in Hin. discriminate Hin.
Defined.

(** The trusted-host rule as the specification words it: the host,
    lowercased and with a leading [www.] stripped, equals an allowlist entry
    or ends with a dot followed by one. *)
Definition spec_trusted_host (host : string) : bool :=
  let h := lower host in
  let h := if startswith h "www." then drop 4 h else h in
  existsb (fun t => String.eqb h t || endswith h ("." ++ t))%bool TRUSTED_DOMAINS.

(** C3 (evaluation at the failing inputs): [awww.google.com] and
    [www.google.com] are trusted hosts by the rule above, yet
    [validate_url] does not answer [OK]/0.0 for
    [https://awww.google.com/] (every [www.] is removed, giving
    [agoogle.com]) nor for [https://www.google.com:443/search] (the port
    stays in the netloc); with no Stage 1 models it answers [WARN]/0.5. *)
Lemma is_trusted_domain_misses_trusted_hosts :
  spec_trusted_host "awww.google.com" = true /\
  validate_url MLUnavailable "https://awww.google.com/" =
    {| s1_verdict := "WARN"; s1_score := 1 # 2 |} /\
  spec_trusted_host "www.google.com" = true /\
  validate_url MLUnavailable "https://www.google.com:443/search" =
    {| s1_verdict := "WARN"; s1_score := 1 # 2 |}.
Proof. vm_compute. repeat split. Qed.

(** C4 (counterexample): the host [x-verify.google.com] matches the first
    phishing pattern, but [validate_url] answers [OK]/0.0 because the
    trusted-domain check runs first. *)
Lemma validate_url_phishing_claim_fails :
  ~ (forall (ml : ml_outcome) (url n : string),
       urlsplit_netloc url = Some n ->
       existsb (fun pat => rx_match pat (lower n)) PHISHING_PATTERNS = true ->
       validate_url ml url = {| s1_verdict := "BLOCK"; s1_score := 1 |}).
Proof.
  intros H.
  specialize (H MLUnavailable "https://x-verify.google.com/" "x-verify.google.com"
                ltac:(vm_compute; reflexivity) ltac:(vm_compute; reflexivity)).
  vm_compute in H. discriminate H.
Qed.

(** C4 (amended): a URL that the trusted-domain check does not accept and
    whose lowercased netloc matches one of the 17 phishing patterns gets
    [BLOCK] with score 1.0. *)
Theorem validate_url_blocks_phishing (ml : ml_outcome) (url n : string) :
  urlsplit_netloc url = Some n ->
  is_trusted_domain url = false ->
  existsb (fun pat => rx_match pat (lower n)) PHISHING_PATTERNS = true ->
  validate_url ml url = {| s1_verdict := "BLOCK"; s1_score := 1 |}.
Proof.
  intros Hn Ht Hp. unfold validate_url. rewrite Ht.
  unfold check_domain_blacklist. rewrite Hn. cbv zeta. rewrite Hp. reflexivity.
Qed.

Lemma validate_url_blocks_phishing_witness :
  validate_url MLUnavailable "https://login-verify.com/secure" =
  {| s1_verdict := "BLOCK"; s1_score := 1 |}.
Proof.
  apply (validate_url_blocks_phishing MLUnavailable "https://login-verify.com/secure"
           "login-verify.com"); vm_compute; reflexivity.
Defined.

Section FoldSum.
Context {A : Type} (f : A -> Q).

Lemma fold_left_add_ge (l : list A) (a : Q) :
  (forall x, In x l -> 0 <= f x)%Q ->
  (a <= fold_left (fun acc x => acc + f x) l a)%Q.
Proof.
  revert a. induction l as [|y l IH]; intros a Hpos; simpl; [apply Qle_refl|].
  apply Qle_trans with (a + f y)%Q.
  - rewrite <- (Qplus_0_r a) at 1. apply Qplus_le_compat; [apply Qle_refl | apply Hpos; left; auto].
  - apply IH. intros x Hx. apply Hpos. right. exact Hx.
Qed.

Lemma fold_left_add_ge_elem (l : list A) (a : Q) (y : A) :
  (forall x, In x l -> 0 <= f x)%Q -> In y l ->
  (a + f y <= fold_left (fun acc x => acc + f x) l a)%Q.
Proof.
  revert a. induction l as [|z l IH]; intros a Hpos Hy; [destruct Hy|]. simpl.
  destruct Hy as [<-|Hy].
  - apply fold_left_add_ge. intros x Hx. apply Hpos. right. exact Hx.
  - apply Qle_trans with (a + f z + f y)%Q.
    + rewrite <- Qplus_assoc, (Qplus_comm (f z)), Qplus_assoc.
      rewrite <- (Qplus_0_r (a + f y)) at 1.
      apply Qplus_le_compat; [apply Qle_refl | apply Hpos; left; auto].
    + apply IH; [intros x Hx; apply Hpos; right; exact Hx | exact Hy].
Qed.

End FoldSum.

Lemma url_contribution_nonneg (v : string) : (0 <= url_contribution v)%Q.
Proof.
  unfold url_contribution.
  destruct (String.eqb v "BLOCK"); [|destruct (String.eqb v "WARN")];
    unfold Qle; simpl; lia.
Qed.

(** C5: a message with an extracted URL that the link path verdicts
    [BLOCK] gets the overall verdict [WARN] or [BLOCK], never [OK]. *)
Theorem validate_message_blocked_url (env : link_env) (message u : string) :
  In u (extracted_urls message) ->
  lr_final_verdict (validate_link env u) = "BLOCK" ->
  mr_verdict (validate_message env message) = "WARN" \/
  mr_verdict (validate_message env message) = "BLOCK".
Proof.
  intros Hin Hblock. unfold validate_message. cbv zeta.
  set (kws := filter _ suspicious_keywords).
  set (risk_kw := if Nat.eqb (length kws) 0 then 0%Q else _).
  set (results := map _ (extracted_urls message)).
  assert (Hkw : (0 <= risk_kw)%Q).
  { unfold risk_kw. destruct (Nat.eqb _ _); [apply Qle_refl|].
    apply Qmult_le_0_compat; [unfold Qle; simpl; lia|].
    unfold Qle; simpl. lia. }
  assert (Hin' : In (u, "BLOCK") results).
  { unfold results. rewrite <- Hblock.
    apply (in_map (fun url => (url, lr_final_verdict (validate_link env url)))). exact Hin. }
  pose proof (fold_left_add_ge_elem (fun uv : string * string => url_contribution (snd uv))
                results risk_kw (u, "BLOCK")
                (fun x _ => url_contribution_nonneg (snd x)) Hin') as Hge.
  cbv beta in Hge. simpl snd in Hge.
  set (risk_urls := fold_left _ results risk_kw) in *.
  assert (Hr : (1 # 2 <= risk_urls)%Q).
  { apply Qle_trans with (risk_kw + (1 # 2))%Q; [|exact Hge].
    rewrite <- (Qplus_0_l (1 # 2)) at 1. apply Qplus_le_compat; [exact Hkw | apply Qle_refl]. }
  set (risk := if has_phone message then _ else risk_urls).
  assert (Hrisk : (3 # 10 <= risk)%Q).
  { apply Qle_trans with (1 # 2)%Q; [unfold Qle; simpl; lia|].
    unfold risk. destruct (has_phone message); [|exact Hr].
    apply Qle_trans with risk_urls; [exact Hr|].
    rewrite <- (Qplus_0_r risk_urls) at 1.
    apply Qplus_le_compat; [apply Qle_refl | unfold Qle; simpl; lia]. }
  simpl. destruct (Qle_bool (7 # 10) risk); [right; reflexivity|].
  apply Qle_bool_iff in Hrisk. rewrite Hrisk. left. reflexivity.
Qed.

Lemma validate_message_blocked_url_witness :
  let env := {| env_ml := fun _ => MLUnavailable;
                env_stage2 := fun _ => S2Raised "timeout" |} in
  mr_verdict (validate_message env "KYC expired, see https://login-verify.com/secure.") = "WARN" \/
  mr_verdict (validate_message env "KYC expired, see https://login-verify.com/secure.") = "BLOCK".
Proof.
  intros env.
  apply (validate_message_blocked_url env "KYC expired, see https://login-verify.com/secure."
           "https://login-verify.com/secure").
  - vm_compute. left. reflexivity.
  - vm_compute. reflexivity.
Defined.

(** C6 (evaluation at the failing input): Stage 1 says [WARN] with score
    0.5, and the Stage 2 scan succeeds with score 0.0 ([OK]).  The QR
    path then reports 0.5, Stage 1's score, not Stage 2's 0.0: the
    expression [stage2.get("score") or stage1.get("score", 0)] treats a
    score of 0.0 as missing. *)
Lemma validate_qr_url_drops_zero_stage2_score :
  let env := {| env_ml := fun _ => MLScores (1 # 2) (1 # 2);
                env_stage2 := fun _ => S2Returned
                  {| s2_success := true; s2_verdict := "OK"; s2_score := 0 |} |} in
  option_map s2_score (lr_stage2 (qr_link (validate_qr_url env "https://example.com/"))) = Some 0%Q /\
  option_map s1_score (lr_stage1 (qr_link (validate_qr_url env "https://example.com/"))) = Some (50 # 100) /\
  qr_risk_score (validate_qr_url env "https://example.com/") = 50 # 100.
Proof. vm_compute. repeat split. Qed.

(** Python's [min(a, b)]: [b] only when [b < a]. *)
Lemma cap_Qmin (t : Q) : (if Qle_bool 1 t then 1%Q else t) = Qmin 1 t.
Proof.
  unfold Qmin, GenericMinMax.gmin.
  destruct (Qle_bool 1 t) eqn:E.
  - apply Qle_bool_iff in E. destruct (1 ?= t)%Q eqn:C; try reflexivity.
    rewrite <- Qgt_alt in C. exfalso. apply (Qlt_not_le t 1); assumption.
  - destruct (1 ?= t)%Q eqn:C; try reflexivity.
    + apply Qeq_alt in C. exfalso.
      assert (1 <= t)%Q as H by (rewrite C; apply Qle_refl).
      apply Qle_bool_iff in H. congruence.
    + rewrite <- Qlt_alt in C. exfalso.
      assert (1 <= t)%Q as H by (apply Qlt_le_weak; exact C).
      apply Qle_bool_iff in H. congruence.
Qed.

(** C10 (counterexample): [get_reputation] on a VPA absent from the store
    returns the default record but does not add an entry. *)
Lemma get_reputation_creates_entry_fails :
  ~ (forall (st : rep_store) (vpa : string),
       st !! lower vpa = None ->
       snd (get_reputation st vpa) !! lower vpa = Some default_reputation).
Proof.
  intros H. specialize (H ∅ "user@oksbi" eq_refl).
  simpl in H. rewrite lookup_empty in H. discriminate H.
Qed.

(** C10 (amended): [get_reputation] returns the stored record, or
    [{reports: 0, trust: 0.50}] for a VPA not in the store, and leaves the
    store unchanged; [update_reputation] starts from that same record
    (creating the entry), and a scam report multiplies trust by 0.75 and
    adds one report, while a clean observation adds 0.05 to trust, capped
    at 1.0; other entries are untouched. *)
Theorem reputation_lookup_and_update (st : rep_store) (vpa : string) :
  let k := lower vpa in
  let r := default default_reputation (st !! k) in
  get_reputation st vpa = (r, st) /\
  update_reputation st vpa true !! k =
    Some {| reports := reports r + 1; trust := trust r * (3 # 4) |} /\
  update_reputation st vpa false !! k =
    Some {| reports := reports r; trust := Qmin 1 (trust r + (1 # 20)) |} /\
  (forall (k' : string) (is_scam : bool), k' <> k ->
     update_reputation st vpa is_scam !! k' = st !! k').
Proof.
  cbv zeta. unfold get_reputation, update_reputation.
  set (k := lower vpa).
  assert (Hr : forall st' : rep_store,
            st' = match st !! k with Some _ => st | None => <[k := default_reputation]> st end ->
            default default_reputation (st' !! k) = default default_reputation (st !! k)).
  { intros st' ->. destruct (st !! k) eqn:E; [rewrite E; reflexivity|].
    rewrite lookup_insert_eq. reflexivity. }
  rewrite (Hr _ eq_refl).
  split; [reflexivity|]. split; [apply lookup_insert_eq|]. split.
  - rewrite lookup_insert_eq. rewrite cap_Qmin. reflexivity.
  - intros k' b Hne. destruct b; rewrite lookup_insert_ne by congruence;
      destruct (st !! k); try reflexivity; rewrite lookup_insert_ne by congruence; reflexivity.
Qed.

Lemma reputation_lookup_and_update_witness :
  update_reputation {[ "a@ybl" := {| reports := 2; trust := 1 # 4 |} ]} "User@OKSBI" true !! "a@ybl" =
  Some {| reports := 2; trust := 1 # 4 |}.
Proof.
  rewrite (proj2 (proj2 (proj2 (reputation_lookup_and_update
             {[ "a@ybl" := {| reports := 2; trust := 1 # 4 |} ]} "User@OKSBI"))) "a@ybl" true
             ltac:(vm_compute; discriminate)).
  apply lookup_singleton_eq.
Defined.

(* ================================================================== *)
(** * Further properties of the code *)

Lemma Qle_bool_false (a b : Q) : Qle_bool a b = false -> (b < a)%Q.
Proof.
  intros E. apply Qnot_le_lt. intros H. apply Qle_bool_iff in H. congruence.
Qed.

(** Case split on a threshold test [a <= b], keeping the comparison. *)
Ltac qle_case :=
  match goal with
  | |- context [Qle_bool ?a ?b] =>
      (* innermost test first *)
      lazymatch a with context [Qle_bool _ _] => fail | _ => idtac end;
      lazymatch b with context [Qle_bool _ _] => fail | _ => idtac end;
      let E := fresh "E" in
      destruct (Qle_bool a b) eqn:E;
      [apply Qle_bool_iff in E | apply Qle_bool_false in E]
  end.

(** ** The link path *)

(** [validate_link] never lowers what Stage 1 found: a Stage 1 [BLOCK]
    stays [BLOCK], a Stage 1 [WARN] ends [WARN] or [BLOCK], and the final
    risk score is at least the Stage 1 score, whatever Stage 2 does. *)
Theorem validate_link_never_downgrades (url : string) (r1 : stage1_result)
    (stage2 : s2_outcome) :
  let lr := validate_link_with url (Some r1) stage2 in
  (s1_verdict r1 = "BLOCK" -> lr_final_verdict lr = "BLOCK") /\
  (s1_verdict r1 = "WARN" ->
     lr_final_verdict lr = "WARN" \/ lr_final_verdict lr = "BLOCK") /\
  (s1_score r1 <= lr_risk_score lr)%Q.
Proof.
  cbv zeta. unfold validate_link_with. destruct r1 as [v1 sc1]. simpl.
  assert (Hmax : forall b, (sc1 <= py_max sc1 b)%Q).
  { intros b. unfold py_max. qle_case; lra. }
  destruct (in_warn_block v1);
    [destruct stage2 as [m|r2]; [|destruct (s2_success r2)]|]; simpl;
    repeat split; try (intros ->); auto; try lra; try apply Hmax.
  - destruct (String.eqb (s2_verdict r2) "BLOCK"); simpl; auto.
Qed.

(** ** [validate_url] *)

Lemma round2_bounds (q : Q) : (0 <= q <= 1)%Q -> (0 <= round2 q <= 1)%Q.
Proof.
  intros [H0 H1]. unfold round2.
  assert (A : (Qfloor (1 # 2) <= Qfloor (q * 100 + (1 # 2)))%Z)
    by (apply Qfloor_resp_le; lra).
  assert (B : (Qfloor (q * 100 + (1 # 2)) <= Qfloor (201 # 2))%Z)
    by (apply Qfloor_resp_le; lra).
  change (Qfloor (1 # 2)) with 0%Z in A. change (Qfloor (201 # 2)) with 100%Z in B.
  set (z := Qfloor (q * 100 + (1 # 2))) in *.
  split; unfold Qle; cbn [Qnum Qden]; lia.
Qed.

Lemma stage1_score_bounds (ml : ml_outcome) (url : string) :
  (forall x y, ml = MLScores x y -> (0 <= x <= 1)%Q /\ (0 <= y <= 1)%Q) ->
  (0 <= s1_score (validate_url ml url) <= 1)%Q.
Proof.
  intros Hml. unfold validate_url.
  destruct (is_trusted_domain url); [simpl; lra|].
  destruct (check_domain_blacklist url) as [[|]|]; simpl; try lra.
  destruct ml as [| |x y]; simpl; try lra.
  destruct (Hml x y eq_refl) as [Hx Hy]. apply round2_bounds. lra.
Qed.

(** With model outputs in [0, 1], the Stage 1 risk score of any URL is in
    [0, 1]: 0.0 for a trusted domain, 1.0 for a blacklisted one, 0.5 when
    the check or the models fail, and the rounded weighted score
    otherwise. *)
Theorem validate_url_score_bounds (ml : ml_outcome) (url : string) :
  (forall x y, ml = MLScores x y -> (0 <= x <= 1)%Q /\ (0 <= y <= 1)%Q) ->
  (0 <= s1_score (validate_url ml url) <= 1)%Q.
Proof. apply stage1_score_bounds. Qed.

Lemma validate_url_score_bounds_witness :
  (0 <= s1_score (validate_url (MLScores (9 # 10) (3 # 10)) "http://example.org/login") <= 1)%Q.
Proof.
  apply validate_url_score_bounds. intros x y H. injection H as <- <-. split; lra.
Defined.

(** ** [validate_message] *)

(** The message risk before the cap, as the code builds it: at least the
    keyword part, plus each URL's part. *)
Lemma validate_message_risk (env : link_env) (message : string) :
  let n := length (filter (contains (lower message)) suspicious_keywords) in
  let risk_kw := if Nat.eqb n 0 then 0%Q else ((15 # 100) * inject_Z (Z.of_nat n))%Q in
  exists risk : Q,
    (0 <= risk_kw)%Q /\ (risk_kw <= risk)%Q /\
    (forall u, In u (extracted_urls message) ->
       (risk_kw + url_contribution (lr_final_verdict (validate_link env u)) <= risk)%Q) /\
    mr_verdict (validate_message env message) =
      (if Qle_bool (7 # 10) risk then "BLOCK"
       else if Qle_bool (3 # 10) risk then "WARN" else "OK") /\
    mr_risk_score (validate_message env message) = Qmin risk 1.
Proof.
  intros n risk_kw. unfold validate_message. cbv zeta. fold n. fold risk_kw.
  assert (Hkw : (0 <= risk_kw)%Q).
  { unfold risk_kw. destruct (Nat.eqb n 0); [lra|].
    assert (0 <= inject_Z (Z.of_nat n))%Q by (unfold Qle; simpl; lia). lra. }
  set (results := map _ (extracted_urls message)).
  set (risk_urls := fold_left _ results risk_kw).
  assert (Hu : (risk_kw <= risk_urls)%Q).
  { apply (fold_left_add_ge (fun uv : string * string => url_contribution (snd uv))).
    intros x _. apply url_contribution_nonneg. }
  exists (if has_phone message then (risk_urls + (1 # 10))%Q else risk_urls).
  split; [exact Hkw|]. split; [destruct (has_phone message); lra|]. split.
  - intros u Hin.
    pose proof (fold_left_add_ge_elem (fun uv : string * string => url_contribution (snd uv))
                  results risk_kw (u, lr_final_verdict (validate_link env u))
                  (fun x _ => url_contribution_nonneg (snd x))
                  (in_map (fun url => (url, lr_final_verdict (validate_link env url)))
                     _ _ Hin)) as Hge.
    cbv beta in Hge. simpl snd in Hge. fold risk_urls in Hge.
    destruct (has_phone message); lra.
  - split; reflexivity.
Qed.

(** The reported message risk score is always in [0, 1]. *)
Theorem validate_message_score_bounds (env : link_env) (message : string) :
  (0 <= mr_risk_score (validate_message env message) <= 1)%Q.
Proof.
  destruct (validate_message_risk env message) as (risk & Hkw & Hr & _ & _ & ->).
  destruct (Q.min_spec risk 1) as [[H1 H2]|[H1 H2]]; rewrite H2; lra.
Qed.

(** A message with an extracted URL that the link path verdicts [WARN]
    is never [OK]. *)
Theorem validate_message_warned_url (env : link_env) (message u : string) :
  In u (extracted_urls message) ->
  lr_final_verdict (validate_link env u) = "WARN" ->
  mr_verdict (validate_message env message) = "WARN" \/
  mr_verdict (validate_message env message) = "BLOCK".
Proof.
  intros Hin Hwarn.
  destruct (validate_message_risk env message) as (risk & Hkw & _ & Hurl & -> & _).
  specialize (Hurl u Hin). rewrite Hwarn in Hurl.
  change (url_contribution "WARN") with (3 # 10)%Q in Hurl.
  qle_case; [right; reflexivity|]. qle_case; [left; reflexivity|]. lra.
Qed.

Lemma validate_message_warned_url_witness :
  let env := {| env_ml := fun _ => MLUnavailable;
                env_stage2 := fun _ => S2Raised "timeout" |} in
  mr_verdict (validate_message env "see https://example.org/a") = "WARN" \/
  mr_verdict (validate_message env "see https://example.org/a") = "BLOCK".
Proof.
  intros env.
  apply (validate_message_warned_url env "see https://example.org/a" "https://example.org/a").
  - vm_compute. left. reflexivity.
  - vm_compute. reflexivity.
Defined.

(** Keywords alone decide a floor: two suspicious keywords make a
    message [WARN] or [BLOCK], five make it [BLOCK]. *)
Theorem validate_message_keyword_thresholds (env : link_env) (message : string) :
  let n := length (filter (contains (lower message)) suspicious_keywords) in
  (2 <= n)%nat ->
  (mr_verdict (validate_message env message) = "WARN" \/
   mr_verdict (validate_message env message) = "BLOCK") /\
  ((5 <= n)%nat -> mr_verdict (validate_message env message) = "BLOCK").
Proof.
  intros n Hn.
  destruct (validate_message_risk env message) as (risk & _ & Hr & _ & -> & _).
  fold n in Hr. destruct (Nat.eqb n 0) eqn:E; [apply Nat.eqb_eq in E; lia|].
  assert (H2 : (2 <= inject_Z (Z.of_nat n))%Q) by (unfold Qle; simpl; lia).
  split.
  - qle_case; [right; reflexivity|]. qle_case; [left; reflexivity|]. lra.
  - intros H5. assert (H5' : (5 <= inject_Z (Z.of_nat n))%Q) by (unfold Qle; simpl; lia).
    qle_case; [reflexivity|]. lra.
Qed.

Lemma validate_message_keyword_thresholds_witness :
  let env := {| env_ml := fun _ => MLUnavailable;
                env_stage2 := fun _ => S2Raised "timeout" |} in
  (mr_verdict (validate_message env "URGENT: verify KYC now, account suspended") = "WARN" \/
   mr_verdict (validate_message env "URGENT: verify KYC now, account suspended") = "BLOCK") /\
  ((5 <= length (filter (contains (lower "URGENT: verify KYC now, account suspended"))
                   suspicious_keywords))%nat ->
   mr_verdict (validate_message env "URGENT: verify KYC now, account suspended") = "BLOCK").
Proof.
  intros env.
  apply (validate_message_keyword_thresholds env "URGENT: verify KYC now, account suspended").
  vm_compute. lia.
Defined.

(** A message with no suspicious keyword, no URL and no phone number is
    [OK] with risk 0. *)
Theorem validate_message_clean (env : link_env) (message : string) :
  filter (contains (lower message)) suspicious_keywords = [] ->
  extracted_urls message = [] ->
  has_phone message = false ->
  mr_verdict (validate_message env message) = "OK" /\
  mr_risk_score (validate_message env message) = 0%Q.
Proof.
  intros Hk Hu Hp. unfold validate_message. cbv zeta.
  rewrite Hk, Hu, Hp. split; reflexivity.
Qed.

Lemma validate_message_clean_witness :
  let env := {| env_ml := fun _ => MLUnavailable;
                env_stage2 := fun _ => S2Raised "timeout" |} in
  mr_verdict (validate_message env "see you at lunch") = "OK" /\
  mr_risk_score (validate_message env "see you at lunch") = 0%Q.
Proof.
  intros env. apply validate_message_clean; vm_compute; reflexivity.
Defined.

(** ** [fallback_risk] *)

Lemma fallback_level_score (s : Q) :
  fb_score (if Qle_bool 70 s then {| fb_level := "HIGH"; fb_score := s; fb_action := "BLOCK" |}
            else if Qle_bool 40 s then {| fb_level := "MEDIUM"; fb_score := s; fb_action := "CHALLENGE" |}
            else {| fb_level := "LOW"; fb_score := s; fb_action := "ALLOW_WITH_LOG" |}) = s.
Proof. destruct (Qle_bool 70 s), (Qle_bool 40 s); reflexivity. Qed.

(** [max(0, min(100, risk))] lands in [0, 100] ... *)
Lemma fallback_clamp_bounds (r : Q) :
  (0 <= (if Qle_bool (if Qle_bool r 100 then r else 100%Q) 0 then 0%Q
         else if Qle_bool r 100 then r else 100%Q) <= 100)%Q.
Proof. repeat qle_case; lra. Qed.

(** ... and is monotone in [risk]. *)
Lemma fallback_clamp_mono (r r' : Q) : (r <= r')%Q ->
  ((if Qle_bool (if Qle_bool r 100 then r else 100%Q) 0 then 0%Q
    else if Qle_bool r 100 then r else 100%Q) <=
   (if Qle_bool (if Qle_bool r' 100 then r' else 100%Q) 0 then 0%Q
    else if Qle_bool r' 100 then r' else 100%Q))%Q.
Proof. intros H. repeat qle_case; lra. Qed.

(** The fallback score is always in [0, 100]. *)
Theorem fallback_risk_score_bounds (static_score : Q) (hard_rule_hits : Z)
    (tls_ok upi_in_url : bool) (whois_age_days : option Z) (in_blacklist : bool) :
  (0 <= fb_score (fallback_risk static_score hard_rule_hits tls_ok upi_in_url
                                whois_age_days in_blacklist) <= 100)%Q.
Proof.
  unfold fallback_risk. destruct in_blacklist; [simpl; lra|]. cbv zeta.
  rewrite fallback_level_score. apply fallback_clamp_bounds.
Qed.

(** A higher static score never gives a lower fallback score, all other
    signals being equal. *)
Theorem fallback_risk_score_monotone (s s' : Q) (hard_rule_hits : Z)
    (tls_ok upi_in_url : bool) (whois_age_days : option Z) (in_blacklist : bool) :
  (s <= s')%Q ->
  (fb_score (fallback_risk s hard_rule_hits tls_ok upi_in_url whois_age_days in_blacklist) <=
   fb_score (fallback_risk s' hard_rule_hits tls_ok upi_in_url whois_age_days in_blacklist))%Q.
Proof.
  intros Hs. unfold fallback_risk. destruct in_blacklist; [simpl; lra|]. cbv zeta.
  rewrite !fallback_level_score. apply fallback_clamp_mono.
  destruct (Z.eqb hard_rule_hits 0), tls_ok, upi_in_url; destruct whois_age_days as [d|];
    try (destruct (Z.ltb d 7); [|destruct (Z.ltb d 30); [|destruct (Z.ltb d 180)]]);
    cbv beta iota; lra.
Qed.

Lemma fallback_risk_score_monotone_witness :
  (fb_score (fallback_risk (1 # 5) 1%Z false true (Some 10%Z) false) <=
   fb_score (fallback_risk (3 # 5) 1%Z false true (Some 10%Z) false))%Q.
Proof. apply fallback_risk_score_monotone. lra. Defined.

(** ** [domain_from_url] *)

Lemma has_char_app (a b : string) (c : ascii) :
  has_char (a ++ b) c = (has_char a c || has_char b c)%bool.
Proof. induction a as [|x a IH]; simpl; [reflexivity|]. rewrite IH, orb_assoc. reflexivity. Qed.

Lemma substring_all (s : string) : substring 0 (String.length s) s = s.
Proof. induction s as [|x s IH]; simpl; congruence. Qed.

Lemma startswith_empty (s : string) : startswith s EmptyString = true.
Proof. destruct s; reflexivity. Qed.

Lemma split_once_char_some (c : ascii) (s a b : string) :
  split_once (String c EmptyString) s = Some (a, b) ->
  has_char a c = false /\ s = (a ++ String c b)%string.
Proof.
  revert a b. induction s as [|x s IH]; intros a b H; simpl in H; [discriminate|].
  destruct (Ascii.eqb c x) eqn:E; simpl in H; rewrite ?startswith_empty in H.
  - injection H as <- <-. apply Ascii.eqb_eq in E as ->. split; [reflexivity|].
    unfold drop. simpl. rewrite Nat.sub_0_r, substring_all. reflexivity.
  - destruct (split_once (String c EmptyString) s) as [[a' b']|] eqn:E2; simpl in H;
      [|discriminate].
    injection H as <- <-. destruct (IH a' b' eq_refl) as [Ha ->]. simpl.
    rewrite E, Ha. split; reflexivity.
Qed.

Lemma split_once_char_none (c : ascii) (s : string) :
  split_once (String c EmptyString) s = None -> has_char s c = false.
Proof.
  induction s as [|x s IH]; intros H; simpl in *; [reflexivity|].
  destruct (Ascii.eqb c x); simpl in H; rewrite ?startswith_empty in H; [discriminate|].
  destruct (split_once (String c EmptyString) s) as [[a' b']|]; simpl in H;
    [discriminate|]. apply IH. reflexivity.
Qed.

(** [domain_from_url] returns a bare host: no path separator [/] and no
    port separator [:] is left in it, whatever the input. *)
Theorem domain_from_url_bare_host (url : string) :
  has_char (domain_from_url url) "/" = false /\
  has_char (domain_from_url url) ":" = false.
Proof.
  unfold domain_from_url. cbv zeta.
  match goal with |- context [split_once "/" ?u] => generalize u; intros u1 end.
  assert (H2 : has_char (match split_once "/" u1 with Some (a, _) => a | None => u1 end) "/"
               = false).
  { destruct (split_once "/" u1) as [[a b]|] eqn:E;
      [apply (split_once_char_some _ _ _ _ E) | apply split_once_char_none; exact E]. }
  generalize dependent (match split_once "/" u1 with Some (a, _) => a | None => u1 end).
  intros u2 H2. destruct (split_once ":" u2) as [[a b]|] eqn:E.
  - destruct (split_once_char_some _ _ _ _ E) as [Ha Heq].
    rewrite Heq, has_char_app in H2. apply orb_false_elim in H2 as [H2 _]. auto.
  - split; [exact H2 | apply split_once_char_none; exact E].
Qed.

(** ** [validate_url_stage2] *)

(** A successful Stage 2 result carries the verdict its score gives at
    the thresholds 0.7 and 0.4 (a trusted domain: [OK] with 0.0); an
    unsuccessful one (scan raised, no data, or an error flag) is always
    [WARN] with score 0.5. *)
Theorem validate_url_stage2_verdict (scan : scan_outcome) :
  let r := validate_url_stage2 scan in
  (s2_success r = true ->
     s2_verdict r = (if Qle_bool (7 # 10) (s2_score r) then "BLOCK"
                     else if Qle_bool (4 # 10) (s2_score r) then "WARN" else "OK")) /\
  (s2_success r = false -> s2_verdict r = "WARN" /\ s2_score r = 1 # 2).
Proof.
  cbv zeta. destruct scan as [| |risk [] []]; simpl; split; intros H;
    try discriminate; auto.
Qed.

(** ** [vpa_reputation.py] *)

Lemma lower_c_idem (c : ascii) : lower_c (lower_c c) = lower_c c.
Proof. destruct c as [[] [] [] [] [] [] [] []]; vm_compute; reflexivity. Qed.

Lemma lower_idem (s : string) : lower (lower s) = lower s.
Proof. induction s as [|c s IH]; simpl; [reflexivity|]. rewrite lower_c_idem, IH. reflexivity. Qed.

(** Lookups and updates ignore the letter case of the VPA: asking for or
    reporting ["User@OKSBI"] is the same as for ["user@oksbi"]. *)
Theorem reputation_case_insensitive (st : rep_store) (vpa : string) (is_scam : bool) :
  get_reputation st vpa = get_reputation st (lower vpa) /\
  update_reputation st vpa is_scam = update_reputation st (lower vpa) is_scam.
Proof. unfold get_reputation, update_reputation. rewrite lower_idem. split; reflexivity. Qed.

(** [update_reputation] keeps every record well formed: if all trust
    values are in [0, 1] and all report counts non-negative before, the
    same holds after. *)
Theorem update_reputation_keeps_bounds (st : rep_store) (vpa : string) (is_scam : bool) :
  map_Forall (fun _ r => (0 <= trust r <= 1)%Q /\ (0 <= reports r)%Z) st ->
  map_Forall (fun _ r => (0 <= trust r <= 1)%Q /\ (0 <= reports r)%Z)
    (update_reputation st vpa is_scam).
Proof.
  intros Hst. unfold update_reputation.
  set (k := lower vpa).
  set (st' := match st !! k with Some _ => st | None => <[k := default_reputation]> st end).
  assert (Hst' : map_Forall (fun _ r => (0 <= trust r <= 1)%Q /\ (0 <= reports r)%Z) st').
  { unfold st'. destruct (st !! k); [exact Hst|].
    apply map_Forall_insert_2; [simpl; split; [lra | lia] | exact Hst]. }
  assert (Hr : (0 <= trust (default default_reputation (st' !! k)) <= 1)%Q /\
               (0 <= reports (default default_reputation (st' !! k)))%Z).
  { destruct (st' !! k) as [r|] eqn:E; simpl; [exact (Hst' k r E) | split; [lra | lia]]. }
  destruct (default default_reputation (st' !! k)) as [n t]. simpl in Hr.
  destruct Hr as [[Ht0 Ht1] Hn].
  destruct is_scam; apply map_Forall_insert_2; try exact Hst'; simpl.
  - split; [lra | lia].
  - split; [|lia]. qle_case; lra.
Qed.

Lemma update_reputation_keeps_bounds_witness :
  map_Forall (fun _ r => (0 <= trust r <= 1)%Q /\ (0 <= reports r)%Z)
    (update_reputation {[ "a@ybl" := {| reports := 2; trust := 1 # 4 |} ]} "A@YBL" true).
Proof.
  apply update_reputation_keeps_bounds.
  apply map_Forall_singleton. simpl. split; [lra | lia].
Defined.

(** ** The validation cache *)

Lemma get_from_cache_save (cache : vcache) (key : string) (result : pydict) (t now : Z) :
  get_from_cache (save_to_cache cache key result t) key now =
    if Z.ltb (now - t) CACHE_EXPIRY
    then (Some result, save_to_cache cache key result t)
    else (None, delete key cache).
Proof.
  unfold get_from_cache, save_to_cache. rewrite lookup_insert_eq. simpl.
  destruct (Z.ltb (now - t) CACHE_EXPIRY); [reflexivity|].
  rewrite delete_insert_eq. reflexivity.
Qed.

(** A saved result is found again under its key for 24 hours after it
    was saved; from then on the lookup misses and drops the entry (the
    rest of the cache is left as it was); a save under another key does
    not change what a lookup finds. *)
Theorem cache_save_then_lookup (cache : vcache) (key : string) (result : pydict) (t now : Z) :
  get_from_cache (save_to_cache cache key result t) key now =
    (if Z.ltb (now - t) CACHE_EXPIRY
     then (Some result, save_to_cache cache key result t)
     else (None, delete key cache)) /\
  (forall key', key' <> key ->
     fst (get_from_cache (save_to_cache cache key result t) key' now) =
     fst (get_from_cache cache key' now)).
Proof.
  split; [apply get_from_cache_save|].
  intros key' Hne. unfold get_from_cache, save_to_cache.
  rewrite lookup_insert_ne by congruence.
  destruct (cache !! key') as [e|]; [destruct (Z.ltb _ _)|]; reflexivity.
Qed.

(** After a call that missed the cache and stored a result without an
    error, the same input asked again within 24 hours of the save is
    answered from the cache: the stored dict with [cached: true] and the
    new response time, whatever the handlers would now return, and the
    cache is unchanged. *)
Theorem validate_input_repeat_hit
    (get_cache_key : string -> option string -> option string -> string)
    (handle_link handle_vpa handle_message handle_qr : option string -> outcome)
    (handle_link' handle_vpa' handle_message' handle_qr' : option string -> outcome)
    (cache : vcache) (input_type : string) (value file_data : option string)
    (clk clk2 : clock) (r res : pydict) (cache' : vcache) :
  validate_input get_cache_key handle_link handle_vpa handle_message handle_qr
    cache input_type value file_data clk = (res, cache') ->
  cache_miss cache (get_cache_key input_type value file_data) (now_lookup clk) ->
  dispatch handle_link handle_vpa handle_message handle_qr input_type value file_data
    = Return r ->
  r !! "error" = None ->
  (now_lookup clk2 - now_save clk < CACHE_EXPIRY)%Z ->
  validate_input get_cache_key handle_link' handle_vpa' handle_message' handle_qr'
    cache' input_type value file_data clk2 =
  (<["response_time_ms" := VInt (Z.quot (t_end clk2 - t_start clk2) 1000)]>
     (<["cached" := VBool true]> res), cache').
Proof.
  intros Hrun Hmiss Hd Herr Ht.
  unfold validate_input in Hrun |- *. unfold cache_miss in Hmiss.
  set (key := get_cache_key input_type value file_data) in *.
  destruct (get_from_cache cache key (now_lookup clk)) as [c0 cache0]. simpl in Hmiss.
  cbn iota in Hrun. rewrite Hmiss, Hd in Hrun.
  set (result := <["response_time_ms" := _]> (<["cached" := VBool false]> r)) in Hrun.
  assert (Hok : result !! "error" = None)
    by (unfold result; rewrite !lookup_insert_ne by discriminate; exact Herr).
  destruct (decide (result !! "error" = None)) as [_|Hn]; [|contradiction].
  injection Hrun as <- <-.
  rewrite get_from_cache_save. apply Z.ltb_lt in Ht. rewrite Ht. cbn iota.
  unfold cache_hit. destruct (decide (result = ∅)) as [He|_]; [|reflexivity].
  exfalso. assert (Hms : result !! "response_time_ms" = None) by (rewrite He; apply lookup_empty).
  unfold result in Hms. rewrite lookup_insert_eq in Hms. discriminate Hms.
Qed.

Lemma validate_input_repeat_hit_witness :
  let h := fun _ : option string => Return {[ "verdict" := VStr "OK" ]} in
  let res : pydict := <["response_time_ms" := VInt 2]>
                        (<["cached" := VBool false]> {[ "verdict" := VStr "OK" ]}) in
  let c' : vcache := <["k" := {| ce_result := res; ce_timestamp := 5 |}]> ∅ in
  validate_input (fun _ _ _ => "k") h h h h c' "link" (Some "https://a.in") None
    {| now_lookup := 100; t_start := 100; t_end := 1100; now_save := 200 |} =
  (<["response_time_ms" := VInt 1]> (<["cached" := VBool true]> res), c').
Proof.
  intros h res c'.
  apply (validate_input_repeat_hit (fun _ _ _ => "k") h h h h h h h h ∅ "link"
           (Some "https://a.in") None
           {| now_lookup := 0; t_start := 0; t_end := 2000; now_save := 5 |}
           {| now_lookup := 100; t_start := 100; t_end := 1100; now_save := 200 |}
           {[ "verdict" := VStr "OK" ]});
    vm_compute; reflexivity.
Defined.

(** An input type other than [link], [vpa], [message] and [qr] is
    answered with [error: "Invalid type"] (and [cached: false]), and that
    answer is never stored in the cache. *)
Theorem validate_input_invalid_type
    (get_cache_key : string -> option string -> option string -> string)
    (handle_link handle_vpa handle_message handle_qr : option string -> outcome)
    (cache : vcache) (input_type : string) (value file_data : option string)
    (clk : clock) (res : pydict) (cache' : vcache) :
  validate_input get_cache_key handle_link handle_vpa handle_message handle_qr
    cache input_type value file_data clk = (res, cache') ->
  cache_miss cache (get_cache_key input_type value file_data) (now_lookup clk) ->
  input_type <> "link" -> input_type <> "vpa" -> input_type <> "message" ->
  input_type <> "qr" ->
  res !! "error" = Some (VStr "Invalid type") /\
  res !! "cached" = Some (VBool false) /\
  cache' = snd (get_from_cache cache (get_cache_key input_type value file_data)
                  (now_lookup clk)).
Proof.
  intros Hrun Hmiss H1 H2 H3 H4.
  unfold validate_input in Hrun. unfold cache_miss in Hmiss.
  set (key := get_cache_key input_type value file_data) in *.
  destruct (get_from_cache cache key (now_lookup clk)) as [c0 cache0]. simpl in Hmiss |- *.
  cbn iota in Hrun. rewrite Hmiss in Hrun.
  unfold dispatch in Hrun.
  apply String.eqb_neq in H1, H2, H3, H4. rewrite H1, H2, H3, H4 in Hrun.
  set (result := <["response_time_ms" := _]> (<["cached" := VBool false]> _)) in Hrun.
  assert (He : result !! "error" = Some (VStr "Invalid type"))
    by (unfold result; rewrite !lookup_insert_ne by discriminate; apply lookup_singleton_eq).
  destruct (decide (result !! "error" = None)) as [Hn|_]; [congruence|].
  injection Hrun as <- <-. split; [exact He|]. split; [|reflexivity].
  unfold result. rewrite lookup_insert_ne by discriminate. apply lookup_insert_eq.
Qed.

Lemma validate_input_invalid_type_witness :
  let h := fun _ : option string => Return ∅ in
  let run := validate_input (fun _ _ _ => "k") h h h h ∅ "image" (Some "x") None
               {| now_lookup := 0; t_start := 0; t_end := 0; now_save := 0 |} in
  run.1 !! "error" = Some (VStr "Invalid type") /\
  run.1 !! "cached" = Some (VBool false) /\
  run.2 = snd (get_from_cache ∅ "k" 0).
Proof.
  intros h run.
  apply (validate_input_invalid_type (fun _ _ _ => "k") h h h h ∅ "image" (Some "x") None
           {| now_lookup := 0; t_start := 0; t_end := 0; now_save := 0 |});
    [apply surjective_pairing | reflexivity | discriminate ..].
Defined.

(** ** The QR path *)

Lemma startswith_app_inv (s p : string) :
  startswith s p = true -> exists r, s = (p ++ r)%string.
Proof.
  revert s. induction p as [|c p IH]; intros s H; [exists s; reflexivity|].
  destruct s as [|d s]; simpl in H; [discriminate|].
  apply andb_prop in H as [Hc H]. apply Ascii.eqb_eq in Hc as ->.
  destruct (IH s H) as [r ->]. exists r. reflexivity.
Qed.

(** Every branch of [identify_qr_content_type] after the two
    protected-payment tests returns another type name. *)
Ltac not_protected H :=
  repeat match type of H with
         | context [if ?b then _ else _] => destruct b
         end; discriminate H.

(** The classifier reports ["protected_payment"] exactly when
    [is_protected_payment_qr] holds: an EMV merchant payload, or a
    payload not starting with [http] that names a payment app. *)
Theorem identify_protected_iff (data : string) :
  identify_qr_content_type data = "protected_payment" <->
  is_protected_payment_qr data = true.
Proof.
  unfold identify_qr_content_type, is_protected_payment_qr. cbv zeta.
  destruct (startswith data "00020101" || startswith data "00020201")%bool;
    [split; reflexivity|].
  destruct (startswith data "http"); cbn [negb andb].
  - split; [intros H; not_protected H | discriminate].
  - set (f := contains (lower data)).
    assert (E : existsb f payment_keywords =
                existsb f ["gpay"; "phonepe"; "paytmmp"; "paytmqr"; "bharatpe"; "bhim"]).
    { unfold payment_keywords. simpl.
      destruct (f "bhim"), (f "phonepe"), (f "paytmmp"), (f "paytmqr"), (f "bharatpe"),
        (f "gpay"); reflexivity. }
    rewrite <- E. destruct (existsb f payment_keywords); [split; reflexivity|].
    split; [intros H; not_protected H | discriminate].
Qed.

Lemma take_while_no_amp (x : string) :
  has_char (take_while (fun c => negb (Ascii.eqb c "&")) x) "&" = false.
Proof.
  induction x as [|c x IH]; [reflexivity|]. cbn [take_while].
  destruct (Ascii.eqb c "&") eqn:E; cbn [negb has_char]; [reflexivity|].
  rewrite IH, Ascii.eqb_sym, E. reflexivity.
Qed.

Lemma string_app_cons (c : ascii) (v r : string) :
  (String c v ++ r)%string = String c (v ++ r).
Proof. reflexivity. Qed.

Lemma take_while_amp_app (v rest : string) :
  has_char v "&" = false -> (rest = EmptyString \/ exists r, rest = String "&" r) ->
  take_while (fun c => negb (Ascii.eqb c "&")) (v ++ rest) = v.
Proof.
  intros Hv Hr. induction v as [|c v IH]; rewrite ?string_app_cons.
  - destruct Hr as [->|[r ->]]; reflexivity.
  - cbn [has_char] in Hv. apply orb_false_elim in Hv as [Hc Hv].
    cbn [take_while]. rewrite Ascii.eqb_sym, Hc. cbn [negb].
    rewrite IH by exact Hv. reflexivity.
Qed.

Lemma extract_vpa_step (c : ascii) (s : string) :
  extract_vpa_from_upi (String c s) =
    let run := take_while (fun c => negb (Ascii.eqb c "&")) (drop 3 (String c s)) in
    if (startswith (String c s) "pa=" && negb (String.eqb run EmptyString))%bool
    then Some run else extract_vpa_from_upi s.
Proof. reflexivity. Qed.

Lemma extract_vpa_at_pa (v rest : string) :
  v <> EmptyString -> has_char v "&" = false ->
  (rest = EmptyString \/ exists r, rest = String "&" r) ->
  extract_vpa_from_upi ("pa=" ++ v ++ rest) = Some v.
Proof.
  intros Hne Hv Hr.
  change ("pa=" ++ v ++ rest)%string with (String "p" (String "a" (String "=" (v ++ rest)))).
  rewrite extract_vpa_step. cbv zeta.
  replace (drop 3 (String "p" (String "a" (String "=" (v ++ rest)))))
    with (v ++ rest)%string
    by (unfold drop; simpl; rewrite Nat.sub_0_r, substring_all; reflexivity).
  rewrite take_while_amp_app by assumption.
  assert (Hs : startswith (String "p" (String "a" (String "=" (v ++ rest)))) "pa=" = true)
    by (simpl; apply startswith_empty).
  rewrite Hs.
  destruct (String.eqb v EmptyString) eqn:E; [apply String.eqb_eq in E; contradiction|].
  reflexivity.
Qed.

Lemma extract_vpa_upi_pay (v rest : string) :
  v <> EmptyString -> has_char v "&" = false ->
  (rest = EmptyString \/ exists r, rest = String "&" r) ->
  extract_vpa_from_upi ("upi://pay?pa=" ++ v ++ rest) = Some v.
Proof.
  intros Hne Hv Hr.
  change ("upi://pay?pa=" ++ v ++ rest)%string
    with ("upi://pay?" ++ ("pa=" ++ v ++ rest))%string.
  transitivity (extract_vpa_from_upi ("pa=" ++ v ++ rest)); [reflexivity|].
  apply extract_vpa_at_pa; assumption.
Qed.

(** [extract_vpa_from_upi] only returns a non-empty text without [&]; on
    a [upi://pay?pa=...] link it returns the VPA up to the next
    parameter. *)
Theorem extract_vpa_from_upi_spec :
  (forall s v, extract_vpa_from_upi s = Some v ->
     v <> EmptyString /\ has_char v "&" = false) /\
  (forall v rest, v <> EmptyString -> has_char v "&" = false ->
     (rest = EmptyString \/ exists r, rest = String "&" r) ->
     extract_vpa_from_upi ("upi://pay?pa=" ++ v ++ rest) = Some v).
Proof.
  split.
  - induction s as [|c s IH]; intros v H; simpl in H; [discriminate|].
    match type of H with
    | (if (?b1 && negb (String.eqb ?run EmptyString))%bool then _ else _) = _ =>
        destruct b1; simpl in H;
        [destruct (String.eqb run EmptyString) eqn:E; simpl in H;
           [exact (IH v H)|] | exact (IH v H)]
    end.
    injection H as <-. split.
    + intros H. rewrite H in E. discriminate E.
    + apply take_while_no_amp.
  - apply extract_vpa_upi_pay.
Qed.

Section QRProperties.
Variable unquote : string -> string.

(** A decoded [http://] or [https://] payload is classified [url] and
    answered by the link path: the link verdict, and the QR risk score. *)
Theorem validate_qr_url_payload (env : link_env) (data : string) :
  (startswith data "http://" || startswith data "https://")%bool = true ->
  identify_qr_content_type data = "url" /\
  validate_qr_decoded unquote env data =
    Some {| qa_verdict := lr_final_verdict (validate_link env data);
            qa_risk_score := qr_url_risk (validate_link env data) |}.
Proof.
  intros Hurl.
  assert (Hpre : startswith data "00020101" = false /\ startswith data "00020201" = false /\
                 startswith data "http" = true /\ startswith data "upi://" = false /\
                 startswith data "upi://pay" = false /\ String.eqb data EmptyString = false).
  { apply orb_prop in Hurl as [H|H]; apply startswith_app_inv in H as [r ->]; simpl;
      rewrite ?startswith_empty; repeat split; reflexivity. }
  destruct Hpre as (H1 & H2 & H3 & H4 & H5 & H6).
  assert (Hid : identify_qr_content_type data = "url").
  { unfold identify_qr_content_type. cbv zeta.
    rewrite H1, H2, H3, H4, H5, Hurl. reflexivity. }
  split; [exact Hid|].
  unfold validate_qr_decoded. rewrite H6, Hid. reflexivity.
Qed.

(** A [upi://] payload whose text names a payment app (bhim, phonepe,
    paytmmp, paytmqr, bharatpe, gpay) is classified as a protected
    payment and answered [OK] with risk 0.05, without validating the VPA
    it carries. *)
Theorem validate_qr_upi_payment_app (env : link_env) (data : string) :
  startswith data "upi://" = true ->
  existsb (contains (lower data)) payment_keywords = true ->
  identify_qr_content_type data = "protected_payment" /\
  validate_qr_decoded unquote env data =
    Some {| qa_verdict := "OK"; qa_risk_score := 5 # 100 |}.
Proof.
  intros Hupi Hkw.
  apply startswith_app_inv in Hupi as [r ->].
  assert (Hid : identify_qr_content_type ("upi://" ++ r) = "protected_payment").
  { unfold identify_qr_content_type. cbv zeta. rewrite Hkw. reflexivity. }
  split; [exact Hid|].
  unfold validate_qr_decoded. rewrite Hid. reflexivity.
Qed.

(** A [upi://pay?pa=<vpa>] payload naming no payment app is classified
    [upi], and its verdict and risk are those of [validate_vpa_format] on
    the VPA unquoted twice (once by [validate_qr], once by
    [validate_vpa]). *)
Theorem validate_qr_upi_vpa (env : link_env) (v rest : string) :
  v <> EmptyString -> has_char v "&" = false ->
  (rest = EmptyString \/ exists r, rest = String "&" r) ->
  existsb (contains (lower ("upi://pay?pa=" ++ v ++ rest))) payment_keywords = false ->
  identify_qr_content_type ("upi://pay?pa=" ++ v ++ rest) = "upi" /\
  validate_qr_decoded unquote env ("upi://pay?pa=" ++ v ++ rest) =
    Some {| qa_verdict := vr_verdict (validate_vpa_format (unquote (unquote v)));
            qa_risk_score := vr_risk_score (validate_vpa_format (unquote (unquote v))) |}.
Proof.
  intros Hne Hv Hr Hkw.
  assert (Hid : identify_qr_content_type ("upi://pay?pa=" ++ v ++ rest) = "upi").
  { unfold identify_qr_content_type. cbv zeta. rewrite Hkw. reflexivity. }
  split; [exact Hid|].
  unfold validate_qr_decoded. rewrite Hid.
  rewrite (extract_vpa_upi_pay v rest Hne Hv Hr). reflexivity.
Qed.

End QRProperties.

(** ** The VPA pattern *)

Lemma string_app_nil_r (s : string) : (s ++ EmptyString)%string = s.
Proof. induction s as [|c s IH]; [reflexivity|]. rewrite string_app_cons, IH. reflexivity. Qed.

Lemma string_app_assoc (x y z : string) : ((x ++ y) ++ z)%string = (x ++ (y ++ z))%string.
Proof. induction x as [|c x IH]; [reflexivity|]. rewrite !string_app_cons, IH. reflexivity. Qed.

(** The repetition loop of [ClassRep], named. *)
Lemma rx_classrep_loop (cls : ascii -> bool) (lo hi : nat) (p' : list rx) :
  exists loop : string -> nat -> bool,
    (forall s k, loop s k =
       ((Nat.leb lo k && Nat.leb k hi && rx_match p' s) ||
        (Nat.ltb k hi && match s with
                         | EmptyString => false
                         | String c s' => (cls c && loop s' (S k))%bool
                         end))%bool) /\
    (forall s, rx_match (ClassRep cls lo hi :: p') s = loop s 0).
Proof.
  exists (fix loop (s : string) (k : nat) : bool :=
            ((Nat.leb lo k && Nat.leb k hi && rx_match p' s) ||
             (Nat.ltb k hi && match s with
                              | EmptyString => false
                              | String c s' => (cls c && loop s' (S k))%bool
                              end))%bool).
  split; [intros [|c s] k; reflexivity | reflexivity].
Qed.

Section ClassRepLoop.
Variables (cls : ascii -> bool) (lo hi : nat) (m : string -> bool).
Variable loop : string -> nat -> bool.
Hypothesis Hloop : forall s k, loop s k =
  ((Nat.leb lo k && Nat.leb k hi && m s) ||
   (Nat.ltb k hi && match s with
                    | EmptyString => false
                    | String c s' => (cls c && loop s' (S k))%bool
                    end))%bool.

Lemma classrep_intro (a b : string) (k : nat) :
  forallb cls (list_ascii_of_string a) = true ->
  (lo <= k + String.length a <= hi)%nat -> m b = true -> loop (a ++ b) k = true.
Proof.
  revert k. induction a as [|c a IH]; intros k Ha Hk Hm; rewrite Hloop.
  - simpl in Hk. change (EmptyString ++ b)%string with b. rewrite Hm.
    replace (Nat.leb lo k) with true by (symmetry; apply Nat.leb_le; lia).
    replace (Nat.leb k hi) with true by (symmetry; apply Nat.leb_le; lia). reflexivity.
  - simpl in Ha, Hk. apply andb_prop in Ha as [Hc Ha].
    rewrite string_app_cons, Hc, (IH (S k) Ha ltac:(lia) Hm).
    replace (Nat.ltb k hi) with true by (symmetry; apply Nat.ltb_lt; lia).
    apply orb_true_r.
Qed.

Lemma classrep_elim (s : string) (k : nat) :
  loop s k = true ->
  exists a b, s = (a ++ b)%string /\ forallb cls (list_ascii_of_string a) = true /\
              (lo <= k + String.length a <= hi)%nat /\ m b = true.
Proof.
  revert k. induction s as [|c s IH]; intros k H; rewrite Hloop in H;
    apply orb_true_iff in H as [H|H].
  - apply andb_prop in H as [H Hm]. apply andb_prop in H as [H1 H2].
    apply Nat.leb_le in H1, H2. exists EmptyString, EmptyString. simpl. repeat split; auto; lia.
  - rewrite andb_false_r in H. discriminate H.
  - apply andb_prop in H as [H Hm]. apply andb_prop in H as [H1 H2].
    apply Nat.leb_le in H1, H2. exists EmptyString, (String c s). simpl. repeat split; auto; lia.
  - apply andb_prop in H as [Hk H]. apply andb_prop in H as [Hc H].
    apply Nat.ltb_lt in Hk. destruct (IH (S k) H) as (a & b & -> & Ha & Hlen & Hm).
    exists (String c a), b. simpl. rewrite Hc, Ha. repeat split; auto; lia.
Qed.

End ClassRepLoop.

Lemma rx_lit_at (p' : list rx) (s : string) :
  rx_match (Lit "@" :: p') s = true <->
  exists b, s = String "@" b /\ rx_match p' b = true.
Proof.
  split.
  - intros H. cbn [rx_match] in H. apply andb_prop in H as [Hs H].
    apply startswith_app_inv in Hs as [b ->]. exists b. split; [reflexivity|].
    revert H. cbn [String.length String.append]. simpl.
    rewrite Nat.sub_0_r, substring_all. auto.
  - intros (b & -> & H). cbn [rx_match]. simpl.
    rewrite startswith_empty, Nat.sub_0_r, substring_all. exact H.
Qed.

Lemma rx_end (s : string) :
  rx_match [EndA] s = true <-> s = EmptyString \/ s = String NL EmptyString.
Proof.
  cbn [rx_match]. rewrite andb_true_r, orb_true_iff, !String.eqb_eq. reflexivity.
Qed.

(** [VPA_PATTERN] accepts exactly [a@b] and [a@b] followed by one
    newline, with [a] of 2 to 256 and [b] of 2 to 128 characters of the
    class. *)
Lemma vpa_pattern_iff (s : string) :
  rx_match VPA_PATTERN s = true <->
  exists a b e, s = (a ++ String "@" (b ++ e))%string /\
    (e = EmptyString \/ e = String NL EmptyString) /\
    forallb vpa_cls (list_ascii_of_string a) = true /\ (2 <= String.length a <= 256)%nat /\
    forallb vpa_cls (list_ascii_of_string b) = true /\ (2 <= String.length b <= 128)%nat.
Proof.
  unfold VPA_PATTERN.
  destruct (rx_classrep_loop vpa_cls 2 256 [Lit "@"; ClassRep vpa_cls 2 128; EndA])
    as (loop1 & Hl1 & He1).
  destruct (rx_classrep_loop vpa_cls 2 128 [EndA]) as (loop2 & Hl2 & He2).
  rewrite He1. split.
  - intros H. destruct (classrep_elim _ _ _ _ _ Hl1 s 0 H) as (a & r & -> & Ha & Hla & Hr).
    apply rx_lit_at in Hr as (r' & -> & Hr'). rewrite He2 in Hr'.
    destruct (classrep_elim _ _ _ _ _ Hl2 r' 0 Hr') as (b & e & -> & Hb & Hlb & He).
    apply rx_end in He. exists a, b, e. repeat split; auto; lia.
  - intros (a & b & e & -> & He & Ha & Hla & Hb & Hlb).
    apply (classrep_intro _ _ _ _ _ Hl1); [exact Ha | simpl; lia|].
    apply rx_lit_at. exists (b ++ e)%string. split; [reflexivity|].
    rewrite He2. apply (classrep_intro _ _ _ _ _ Hl2); [exact Hb | simpl; lia|].
    apply rx_end. exact He.
Qed.

Lemma lower_app (x y : string) : lower (x ++ y) = (lower x ++ lower y)%string.
Proof. induction x as [|c x IH]; [reflexivity|]. rewrite string_app_cons. cbn [lower]. rewrite IH. reflexivity. Qed.

Lemma split_last_app_sep (sep : ascii) (a x acc : string) :
  split_last sep (a ++ String sep x) acc = split_last sep x EmptyString.
Proof.
  revert acc. induction a as [|c a IH]; intros acc.
  - change (EmptyString ++ String sep x)%string with (String sep x).
    cbn [split_last]. rewrite Ascii.eqb_refl. reflexivity.
  - rewrite string_app_cons. cbn [split_last]. destruct (Ascii.eqb c sep); apply IH.
Qed.

Lemma split_last_nosep (sep : ascii) (x acc : string) :
  has_char x sep = false -> split_last sep x acc = (acc ++ x)%string.
Proof.
  revert acc. induction x as [|c x IH]; intros acc H.
  - rewrite string_app_nil_r. reflexivity.
  - cbn [has_char] in H. apply orb_false_elim in H as [Hc H].
    cbn [split_last]. rewrite Ascii.eqb_sym, Hc, IH by exact H.
    rewrite string_app_assoc. reflexivity.
Qed.

Lemma vpa_cls_no_at (b : string) :
  forallb vpa_cls (list_ascii_of_string b) = true -> has_char b "@" = false.
Proof.
  induction b as [|c b IH]; intros H; [reflexivity|].
  cbn [list_ascii_of_string forallb] in H. apply andb_prop in H as [Hc H].
  cbn [has_char]. destruct (Ascii.eqb "@" c) eqn:E.
  - apply Ascii.eqb_eq in E. subst c. vm_compute in Hc. discriminate Hc.
  - cbn [orb]. apply IH. exact H.
Qed.

Lemma assoc_get_in (k v : string) (l : list (string * string)) :
  assoc_get k l = Some v -> In k (map fst l).
Proof.
  induction l as [|[k' v'] l IH]; cbn [assoc_get]; intros E; [discriminate|].
  destruct (String.eqb k k') eqn:Ek.
  - left. apply String.eqb_eq in Ek. symmetry. exact Ek.
  - right. apply IH. exact E.
Qed.

(** No key of [KNOWN_PROVIDERS] contains a newline. *)
Lemma assoc_get_newline (k : string) :
  has_char k NL = true -> assoc_get k KNOWN_PROVIDERS = None.
Proof.
  intros H. destruct (assoc_get k KNOWN_PROVIDERS) as [v|] eqn:E; [|reflexivity].
  exfalso. apply assoc_get_in in E.
  assert (Hall : forallb (fun k => negb (has_char k NL)) (map fst KNOWN_PROVIDERS) = true)
    by (vm_compute; reflexivity).
  rewrite forallb_forall in Hall. specialize (Hall k E). rewrite H in Hall. discriminate Hall.
Qed.

(** [validate_vpa_format] answers [BLOCK] exactly when the VPA is not of
    the form [a@b], or [a@b] followed by one newline, with [a] of 2 to 256
    and [b] of 2 to 128 characters from [a-zA-Z0-9.-_]. *)
Theorem validate_vpa_format_not_block_iff (vpa : string) :
  vr_verdict (validate_vpa_format vpa) <> "BLOCK" <->
  exists a b e, vpa = (a ++ String "@" (b ++ e))%string /\
    (e = EmptyString \/ e = String NL EmptyString) /\
    forallb vpa_cls (list_ascii_of_string a) = true /\ (2 <= String.length a <= 256)%nat /\
    forallb vpa_cls (list_ascii_of_string b) = true /\ (2 <= String.length b <= 128)%nat.
Proof.
  rewrite <- vpa_pattern_iff. unfold validate_vpa_format.
  destruct (rx_match VPA_PATTERN vpa); cbn -[assoc_get vpa_provider].
  - destruct (assoc_get (vpa_provider vpa) KNOWN_PROVIDERS); cbn;
      split; intros _; first [reflexivity | discriminate].
  - split; [intros H; contradiction H; reflexivity | discriminate].
Qed.

(** The pattern's [$] also matches before a final newline, so a valid
    VPA followed by a newline passes the format check; its provider then
    keeps the newline and is never a known one: the answer is [WARN] with
    risk 0.5, even for a provider such as [oksbi]. *)
Theorem validate_vpa_format_trailing_newline (a b : string) :
  forallb vpa_cls (list_ascii_of_string a) = true -> (2 <= String.length a <= 256)%nat ->
  forallb vpa_cls (list_ascii_of_string b) = true -> (2 <= String.length b <= 128)%nat ->
  validate_vpa_format (a ++ String "@" (b ++ String NL EmptyString)) =
    {| vr_verdict := "WARN"; vr_risk_score := 1 # 2;
       vr_provider := Some (lower b ++ String NL EmptyString)%string |}.
Proof.
  intros Ha Hla Hb Hlb.
  assert (Hm : rx_match VPA_PATTERN (a ++ String "@" (b ++ String NL EmptyString)) = true).
  { apply vpa_pattern_iff. exists a, b, (String NL EmptyString).
    split; [reflexivity|]. split; [right; reflexivity|]. repeat split; auto; lia. }
  assert (Hp : vpa_provider (a ++ String "@" (b ++ String NL EmptyString)) =
               (lower b ++ String NL EmptyString)%string).
  { unfold vpa_provider, py_split_last. rewrite split_last_app_sep, split_last_nosep.
    - change (EmptyString ++ (b ++ String NL EmptyString))%string
        with (b ++ String NL EmptyString)%string.
      rewrite lower_app. reflexivity.
    - rewrite has_char_app, vpa_cls_no_at by exact Hb. reflexivity. }
  unfold validate_vpa_format. rewrite Hm. cbn -[assoc_get vpa_provider].
  rewrite Hp, assoc_get_newline; [reflexivity|].
  rewrite has_char_app. apply orb_true_r.
Qed.

Lemma validate_vpa_format_trailing_newline_witness :
  validate_vpa_format ("shop" ++ String "@" ("oksbi" ++ String NL EmptyString)) =
    {| vr_verdict := "WARN"; vr_risk_score := 1 # 2;
       vr_provider := Some (lower "oksbi" ++ String NL EmptyString)%string |}.
Proof. apply validate_vpa_format_trailing_newline; [reflexivity | simpl; lia | reflexivity | simpl; lia]. Defined.

(** ** Witnesses of the QR properties *)

Lemma validate_qr_url_payload_witness :
  let env := {| env_ml := fun _ => MLUnavailable;
                env_stage2 := fun _ => S2Raised "timeout" |} in
  identify_qr_content_type "https://example.org/pay" = "url" /\
  validate_qr_decoded (fun s => s) env "https://example.org/pay" =
    Some {| qa_verdict := lr_final_verdict (validate_link env "https://example.org/pay");
            qa_risk_score := qr_url_risk (validate_link env "https://example.org/pay") |}.
Proof. intros env. apply validate_qr_url_payload. reflexivity. Defined.

Lemma validate_qr_upi_payment_app_witness :
  let env := {| env_ml := fun _ => MLUnavailable;
                env_stage2 := fun _ => S2Raised "timeout" |} in
  identify_qr_content_type "upi://pay?pa=scam@ybl&pn=PhonePe" = "protected_payment" /\
  validate_qr_decoded (fun s => s) env "upi://pay?pa=scam@ybl&pn=PhonePe" =
    Some {| qa_verdict := "OK"; qa_risk_score := 5 # 100 |}.
Proof.
  intros env. apply validate_qr_upi_payment_app; vm_compute; reflexivity.
Defined.

Lemma validate_qr_upi_vpa_witness :
  let env := {| env_ml := fun _ => MLUnavailable;
                env_stage2 := fun _ => S2Raised "timeout" |} in
  identify_qr_content_type ("upi://pay?pa=" ++ "shop@oksbi" ++ "&am=10") = "upi" /\
  validate_qr_decoded (fun s => s) env ("upi://pay?pa=" ++ "shop@oksbi" ++ "&am=10") =
    Some {| qa_verdict := vr_verdict (validate_vpa_format "shop@oksbi");
            qa_risk_score := vr_risk_score (validate_vpa_format "shop@oksbi") |}.
Proof.
  intros env. apply (validate_qr_upi_vpa (fun s => s) env "shop@oksbi" "&am=10").
  - discriminate.
  - reflexivity.
  - right. exists "am=10". reflexivity.
  - vm_compute. reflexivity.
Defined.

(** ** Risk scores along the link and QR paths *)

Lemma py_max_bounds (a b : Q) :
  (0 <= a <= 1)%Q -> (0 <= b <= 1)%Q -> (0 <= py_max a b <= 1)%Q.
Proof. intros Ha Hb. unfold py_max. qle_case; lra. Qed.


Lemma link_score_bounds (env : link_env) (url : string) :
  (forall u x y, env_ml env u = MLScores x y -> (0 <= x <= 1)%Q /\ (0 <= y <= 1)%Q) ->
  (forall u r, env_stage2 env u = S2Returned r -> (0 <= s2_score r <= 1)%Q) ->
  (0 <= lr_risk_score (validate_link env url) <= 1)%Q.
Proof.
  intros Hml Hs2. unfold validate_link.
  pose proof (stage1_score_bounds (env_ml env url) url (Hml url)) as H1.
  pose proof (Hs2 url) as H2.
  unfold validate_link_with. cbv zeta.
  destruct (in_warn_block _); [destruct (env_stage2 env url) as [m|r]|]; simpl; auto.
  destruct (s2_success r); simpl; auto.
  apply py_max_bounds; [exact H1 | apply H2; reflexivity].
Qed.

(** With model outputs and Stage 2 scores in [0, 1], the link path's
    final risk score is in [0, 1]. *)
Theorem validate_link_score_bounds (env : link_env) (url : string) :
  (forall u x y, env_ml env u = MLScores x y -> (0 <= x <= 1)%Q /\ (0 <= y <= 1)%Q) ->
  (forall u r, env_stage2 env u = S2Returned r -> (0 <= s2_score r <= 1)%Q) ->
  (0 <= lr_risk_score (validate_link env url) <= 1)%Q.
Proof. apply link_score_bounds. Qed.

Lemma validate_link_score_bounds_witness :
  let env := {| env_ml := fun _ => MLScores (9 # 10) (1 # 2);
                env_stage2 := fun _ => S2Returned
                  {| s2_success := true; s2_verdict := "BLOCK"; s2_score := 4 # 5 |} |} in
  (0 <= lr_risk_score (validate_link env "http://free-prize.example/claim") <= 1)%Q.
Proof.
  intros env. apply validate_link_score_bounds.
  - intros u x y H. injection H as <- <-. split; lra.
  - intros u r H. injection H as <-. simpl. lra.
Defined.





(** ** The URLs of a message *)

Lemma list_ascii_app (x y : string) :
  list_ascii_of_string (x ++ y) = app (list_ascii_of_string x) (list_ascii_of_string y).
Proof. induction x as [|c x IH]; [reflexivity|]. rewrite string_app_cons. simpl. rewrite IH. reflexivity. Qed.

Lemma rev_str_app (x y : string) : rev_str (x ++ y) = (rev_str y ++ rev_str x)%string.
Proof.
  induction x as [|c x IH].
  - change (EmptyString ++ y)%string with y. simpl. rewrite string_app_nil_r. reflexivity.
  - rewrite string_app_cons. cbn [rev_str]. rewrite IH, string_app_assoc. reflexivity.
Qed.

Lemma rev_str_involutive (x : string) : rev_str (rev_str x) = x.
Proof.
  induction x as [|c x IH]; [reflexivity|]. cbn [rev_str].
  rewrite rev_str_app, IH. reflexivity.
Qed.

Lemma lstrip_app_stop (p : ascii -> bool) (u w : string) (c : ascii) :
  p c = false -> lstrip p (u ++ String c w) = (lstrip p u ++ String c w)%string.
Proof.
  intros Hc. induction u as [|d u IH].
  - simpl. rewrite Hc. reflexivity.
  - rewrite string_app_cons. cbn [lstrip]. destruct (p d); [exact IH | reflexivity].
Qed.

(** [rstrip] stops at a character it does not strip. *)
Lemma rstrip_app_stop (p : ascii -> bool) (x y : string) (c : ascii) :
  p c = false -> rstrip p (x ++ String c y) = (x ++ String c (rstrip p y))%string.
Proof.
  intros Hc. unfold rstrip. rewrite rev_str_app. cbn [rev_str].
  rewrite string_app_assoc. change (String c EmptyString ++ rev_str x)%string
    with (String c (rev_str x)).
  rewrite lstrip_app_stop by exact Hc. rewrite rev_str_app. cbn [rev_str].
  rewrite rev_str_involutive, string_app_assoc. reflexivity.
Qed.

Lemma forallb_rev_str (q : ascii -> bool) (x : string) :
  forallb q (list_ascii_of_string (rev_str x)) = forallb q (list_ascii_of_string x).
Proof.
  induction x as [|c x IH]; [reflexivity|]. cbn [rev_str].
  rewrite list_ascii_app, forallb_app, IH. simpl. rewrite andb_true_r, andb_comm. reflexivity.
Qed.

Lemma forallb_lstrip (q p : ascii -> bool) (x : string) :
  forallb q (list_ascii_of_string x) = true -> forallb q (list_ascii_of_string (lstrip p x)) = true.
Proof.
  induction x as [|c x IH]; intros H; [reflexivity|]. cbn [lstrip].
  destruct (p c); [|exact H]. apply IH. simpl in H. apply andb_prop in H as [_ H]. exact H.
Qed.

Lemma forallb_rstrip (q p : ascii -> bool) (x : string) :
  forallb q (list_ascii_of_string x) = true -> forallb q (list_ascii_of_string (rstrip p x)) = true.
Proof.
  intros H. unfold rstrip. rewrite forallb_rev_str. apply forallb_lstrip.
  rewrite forallb_rev_str. exact H.
Qed.

Lemma forallb_take_while (p : ascii -> bool) (x : string) :
  forallb p (list_ascii_of_string (take_while p x)) = true.
Proof.
  induction x as [|c x IH]; [reflexivity|]. cbn [take_while].
  destruct (p c) eqn:E; [simpl; rewrite E; exact IH | reflexivity].
Qed.

Lemma findall_urls_shape (fuel : nat) (s u : string) :
  In u (findall_urls fuel s) ->
  exists sch run, (sch = "https://" \/ sch = "http://") /\ u = (sch ++ run)%string /\
    forallb (fun c => negb (is_space c)) (list_ascii_of_string run) = true.
Proof.
  revert s. induction fuel as [|f IH]; intros s H; [destruct H|].
  destruct s as [|c s']; [destruct H|]. cbn [findall_urls] in H.
  set (s := String c s') in H.
  destruct (startswith s "https://");
    [destruct (String.eqb (take_while _ (drop (String.length "https://") s)) EmptyString)|];
    cbn [option_map] in H.
  2: { destruct H as [<-|H]; [|exact (IH _ H)].
       eexists _, _. split; [left; reflexivity|]. split; [reflexivity|].
       apply forallb_take_while. }
  all: destruct (startswith s "http://");
    [destruct (String.eqb (take_while _ (drop (String.length "http://") s)) EmptyString)|];
    try exact (IH _ H).
  all: destruct H as [<-|H]; [|exact (IH _ H)].
  all: eexists _, _; split; [right; reflexivity|]; split; [reflexivity|];
    apply forallb_take_while.
Qed.

(** Every URL that [validate_message] hands to the link path starts with
    [https://] or [http://] and contains no whitespace; stripping the
    trailing punctuation never cuts into the scheme. *)
Theorem extracted_urls_shape (message u : string) :
  In u (extracted_urls message) ->
  (startswith u "https://" || startswith u "http://")%bool = true /\
  forallb (fun c => negb (is_space c)) (list_ascii_of_string u) = true.
Proof.
  intros H. unfold extracted_urls in H. apply in_map_iff in H as (m & <- & Hm).
  destruct (findall_urls_shape _ _ _ Hm) as (sch & run & Hsch & -> & Hrun).
  destruct Hsch as [->| ->].
  - change ("https://" ++ run)%string with ("https:/" ++ String "/" run)%string.
    rewrite rstrip_app_stop by reflexivity. split.
    + simpl. rewrite startswith_empty. reflexivity.
    + rewrite list_ascii_app. simpl. apply forallb_rstrip. exact Hrun.
  - change ("http://" ++ run)%string with ("http:/" ++ String "/" run)%string.
    rewrite rstrip_app_stop by reflexivity. split.
    + simpl. rewrite startswith_empty. reflexivity.
    + rewrite list_ascii_app. simpl. apply forallb_rstrip. exact Hrun.
Qed.

Lemma extracted_urls_shape_witness :
  (startswith "https://bit.ly/x" "https://" || startswith "https://bit.ly/x" "http://")%bool = true /\
  forallb (fun c => negb (is_space c)) (list_ascii_of_string "https://bit.ly/x") = true.
Proof.
  apply (extracted_urls_shape "Claim now: https://bit.ly/x)."). vm_compute. left. reflexivity.
Defined.

(** ** The headless scanner's domain allow-list *)







